(** * HeyGenAvatars: the catalog client and the gallery orchestrator

    A shallow embedding of [services/HeyGenService.ts] (classes
    [HeyGenService] and [AvatarUtils]), of the state handling and the
    rendering alternatives of [components/AvatarGallery.tsx], and of the
    computations of [PaginationControls], [FilterControls],
    [GroupSelector] and [AvatarDetailsModal], with the properties of the
    data-orchestration layer proved about them.

    Conventions of the embedding.
    - A JavaScript string is a [string]; character [c] stands for the code
      unit [nat_of_ascii c] (code units 0..255).
    - Page numbers, page sizes and item counts are integers ([Z]).  The one
      place where the code computes a number that need not be an integer,
      [Math.ceil(length / page_size)], returns a [number], which adds
      [Infinity] and [NaN] to the integers.
    - [undefined] and [null] in an optional field are [None].
    - An [async] function is split at its [await]: what runs before the
      call is one definition, what runs once the promise settles another. *)

From Stdlib Require Import ZArith List Bool String Ascii Lia.
From Stdlib Require Import DecimalString DecimalNat.
From Stdlib Require Import Sorted.
Import ListNotations.

Local Open Scope string_scope.
Local Open Scope Z_scope.

(** ** JavaScript primitives used by the sources *)

Module JS.

(** Result of an arithmetic expression over integers that may leave the
    integers: [x / 0] is [Infinity] for [x > 0] and [NaN] for [x = 0]. *)
Inductive number : Type :=
| Int (z : Z)
| Infinity
| NaN.

(** [Math.ceil(a / b)] for integers [a >= 0] and [b]; the sign of a zero
    result is not tracked. *)
Definition ceil_div (a b : Z) : number :=
  if b =? 0 then (if a =? 0 then NaN else Infinity)
  else Int (- ((- a) / b)).

(** [n <= m] for an integer [n] and a number [m]; a comparison with
    [NaN] is false. *)
Definition int_leb (n : Z) (m : number) : bool :=
  match m with
  | Int z => n <=? z
  | Infinity => true
  | NaN => false
  end.

(** [Number.prototype.toString] on a non-negative integer, as used by
    template literals. *)
Definition nat_toString (n : nat) : string :=
  NilEmpty.string_of_uint (Nat.to_uint n).

(** [Number.prototype.toString] on an integer. *)
Definition toString (z : Z) : string :=
  NilEmpty.string_of_int (Z.to_int z).

(** Relative index of [Array.prototype.slice]: a negative index counts
    from the end, and the result is clamped to [0 .. len]. *)
Definition relative_index (len i : Z) : Z :=
  if i <? 0 then Z.max (len + i) 0 else Z.min i len.

(** [arr.slice(start, end)]. *)
Definition slice {A : Type} (arr : list A) (start end_ : Z) : list A :=
  let len := Z.of_nat (List.length arr) in
  let k := relative_index len start in
  let final := relative_index len end_ in
  firstn (Z.to_nat (final - k)) (skipn (Z.to_nat k) arr).

(** [s] starts with [p]. *)
Fixpoint starts_with (p s : string) : bool :=
  match p, s with
  | EmptyString, _ => true
  | String a p', String b s' => Ascii.eqb a b && starts_with p' s'
  | String _ _, EmptyString => false
  end.

(** [s] without its first [n] characters. *)
Fixpoint drop (n : nat) (s : string) : string :=
  match n, s with
  | O, _ => s
  | S n', String _ s' => drop n' s'
  | S _, EmptyString => EmptyString
  end.

(** [s.includes(needle)]. *)
Fixpoint includes (s needle : string) : bool :=
  starts_with needle s ||
  match s with
  | EmptyString => false
  | String _ s' => includes s' needle
  end.

(** [s.replace(pat, rep)] for a string pattern: only the first
    occurrence of [pat] is replaced. *)
Fixpoint replace (s pat rep : string) : string :=
  if starts_with pat s then rep ++ drop (String.length pat) s
  else match s with
       | EmptyString => EmptyString
       | String c s' => String c (replace s' pat rep)
       end.

(** White space skipped by [parseInt]: TAB, LF, VT, FF, CR, SP, NBSP. *)
Definition isStrWhiteSpaceChar (c : ascii) : bool :=
  let n := nat_of_ascii c in
  (Nat.eqb n 9 || Nat.eqb n 10 || Nat.eqb n 11 || Nat.eqb n 12
   || Nat.eqb n 13 || Nat.eqb n 32 || Nat.eqb n 160)%bool.

Fixpoint trimStart (s : string) : string :=
  match s with
  | EmptyString => EmptyString
  | String c s' => if isStrWhiteSpaceChar c then trimStart s' else s
  end.

(** Value of a character as a digit: [0-9], [a-z] and [A-Z]. *)
Definition digit_value (c : ascii) : option Z :=
  let n := Z.of_nat (nat_of_ascii c) in
  if (48 <=? n) && (n <=? 57) then Some (n - 48)
  else if (97 <=? n) && (n <=? 122) then Some (n - 87)
  else if (65 <=? n) && (n <=? 90) then Some (n - 55)
  else None.

(** The longest prefix of [s] made of digits below [radix], read as a
    number; [acc] is [None] until a digit has been read. *)
Fixpoint parse_digits (radix : Z) (s : string) (acc : option Z) : option Z :=
  match s with
  | EmptyString => acc
  | String c s' =>
      match digit_value c with
      | Some d =>
          if d <? radix
          then parse_digits radix s'
                 (Some (radix * match acc with Some a => a | None => 0 end + d))
          else acc
      | None => acc
      end
  end.

(** [parseInt(s)] without a radix; [None] is [NaN].  Integers are exact
    here, where JavaScript rounds beyond 2^53. *)
Definition parseInt (s : string) : option Z :=
  let s1 := trimStart s in
  let '(sign, s2) :=
    match s1 with
    | String "-" r => (-1, r)
    | String "+" r => (1, r)
    | _ => (1, s1)
    end in
  let '(radix, s3) :=
    match s2 with
    | String "0" (String "x" r) => (16, r)
    | String "0" (String "X" r) => (16, r)
    | _ => (10, s2)
    end in
  option_map (Z.mul sign) (parse_digits radix s3 None).

(** [x || d] on the result of [parseInt]: [NaN] and [0] are falsy. *)
Definition or_default (x : option Z) (d : Z) : Z :=
  match x with
  | Some z => if z =? 0 then d else z
  | None => d
  end.

(** The [error] field of a response is declared [any]
    ([types/Avatar.ts]).  These are the values a JSON payload can put
    there. *)
Inductive any : Type :=
| null
| boolean (b : bool)
| num (z : Z)
| str (s : string)
| object.

(** [ToBoolean], the test of [if (v)]. *)
Definition truthy (v : any) : bool :=
  match v with
  | null => false
  | boolean b => b
  | num z => negb (z =? 0)
  | str s => negb (String.eqb s "")
  | object => true
  end.

(** [if (s)] for an optional string: [undefined] and [""] are falsy. *)
Definition truthy_string (s : option string) : bool :=
  match s with
  | Some x => negb (String.eqb x "")
  | None => false
  end.

(** What a [throw] carries: an [Error] with its message, or some other
    value. *)
Inductive exn : Type :=
| Error (message : string)
| NonError.

(** A completed computation: a value, or a thrown exception (for an
    [async] function, a fulfilled or a rejected promise). *)
Inductive Completion (E A : Type) : Type :=
| Return (a : A)
| Throw (e : E).
Arguments Return {E A} a.
Arguments Throw {E A} e.

Definition bind {E A B : Type} (c : Completion E A)
    (k : A -> Completion E B) : Completion E B :=
  match c with
  | Return a => k a
  | Throw e => Throw e
  end.

(** [try { body } catch (e) { handler(e) }]. *)
Definition try_catch {E A : Type} (body : Completion E A)
    (handler : E -> Completion E A) : Completion E A :=
  match body with
  | Return a => Return a
  | Throw e => handler e
  end.

End JS.


(** ** Data model *)

(** The interfaces of [types/Avatar.ts].  Nullable and optional fields
    are options.  Rocq keeps the fields of all records in one name space,
    so a field whose name is already taken is prefixed, with the name of
    the source beside it. *)
Module Types.

Inductive Gender : Type := male | female.

Definition Gender_eqb (a b : Gender) : bool :=
  match a, b with
  | male, male | female, female => true
  | _, _ => false
  end.

(** The gender selector of the filters: ['all' | 'male' | 'female']. *)
Inductive GenderFilter : Type :=
| all
| only (g : Gender).

Record Avatar : Type := {
  avatar_id : string;
  avatar_name : string;
  gender : Gender;
  preview_image_url : string;
  preview_video_url : string;
  premium : bool;
  type : option string;
  tags : option (list string);
  default_voice_id : option string
}.

Record AvatarGroup : Type := {
  avatar_group_id : string;
  title : string;
  description : option string;
  avatar_count : Z;
  is_public : bool;
  created_at : string;
  updated_at : string;
  group_preview_image_url : option string   (* preview_image_url *)
}.

Record Voice : Type := {
  voice_id : string;
  voice_name : string;
  language : string;
  voice_gender : Gender;                     (* gender *)
  preview_audio_url : option string
}.

Record UsageStats : Type := {
  total_videos : Z;
  total_duration : Z
}.

(** An [AvatarDetails] extends an [Avatar]: [base] holds the inherited
    fields. *)
Record AvatarDetails : Type := {
  base : Avatar;
  details_description : option string;       (* description *)
  details_created_at : option string;        (* created_at *)
  details_updated_at : option string;        (* updated_at *)
  status : option string;
  languages : option (list string);
  voices : option (list Voice);
  usage_stats : option UsageStats
}.

Record PaginationParams : Type := {
  page : Z;
  page_size : Z
}.

Record FilterOptions : Type := {
  gender_filter : GenderFilter;              (* gender *)
  premiumOnly : bool;
  selectedGroup : option string
}.

Record AvatarPage : Type := {
  avatars : list Avatar;
  count : Z;
  total : Z;
  data_page : Z;                             (* page *)
  data_page_size : Z;                        (* page_size *)
  total_pages : JS.number
}.

Record AvatarResponse : Type := {
  error : JS.any;
  data : AvatarPage
}.

Record AvatarGroupList : Type := {
  avatar_groups : list AvatarGroup;
  groups_count : Z;                          (* count *)
  groups_total : Z                           (* total *)
}.

Record AvatarGroupResponse : Type := {
  groups_error : JS.any;                     (* error *)
  groups_data : AvatarGroupList              (* data *)
}.

Record AvatarDetailsResponse : Type := {
  details_error : JS.any;                    (* error *)
  details_data : AvatarDetails               (* data *)
}.

End Types.

(** ** The catalog client: [class HeyGenService] *)

Module HeyGenService.
Import JS Types.

Definition API_BASE_URL : string := "https://api.heygen.com/v2".
Definition DEFAULT_PAGE_SIZE : Z := 20.

(** A GET request: the URL before the query string, and the entries of
    its [URLSearchParams].  The headers are the same on every request
    and are left out. *)
Record Request : Type := {
  url : string;
  queryParams : list (string * string)
}.

(** What [fetch] resolves to, as far as the client looks at it:
    [response.ok], [response.status] and the promise [response.json()],
    whose value the client takes at its declared type. *)
Record Response (A : Type) : Type := {
  ok : bool;
  http_status : Z;
  json : Completion exn A
}.
Arguments ok {A} r.
Arguments http_status {A} r.
Arguments json {A} r.

(** The transport: [fetch] resolves to a response or rejects. *)
Definition Fetch (A : Type) : Type := Request -> Completion exn (Response A).

(** The transport failed: [fetch] rejected, the status is not a success,
    or reading the body threw. *)
Definition transport_failed {A : Type} (c : Completion exn (Response A)) : Prop :=
  match c with
  | Throw _ => True
  | Return r => ok r = false \/ exists e, json r = Throw e
  end.

Definition avatar_preview_image : string :=
  "https://files2.heygen.ai/avatar/v3/1ad51ab9fee24ae88af067206e14a1d8_44250/preview_target.webp".
Definition avatar_preview_video : string :=
  "https://files2.heygen.ai/avatar/v3/1ad51ab9fee24ae88af067206e14a1d8_44250/preview_video_target.mp4".

(** The element built by the callback of
    [Array.from({ length: 50 }, (_, i) => ...)]. *)
Definition generated_avatar (i : nat) : Avatar :=
  {| avatar_id := "mock_avatar_" ++ nat_toString (i + 4);
     avatar_name := "Avatar " ++ nat_toString (i + 4);
     gender := if Nat.eqb (i mod 2) 0 then male else female;
     preview_image_url := avatar_preview_image;
     preview_video_url := avatar_preview_video;
     premium := Nat.eqb (i mod 5) 0;
     type := None;
     tags := None;
     default_voice_id := None |}.

(** The candidate pool of the fallback: three fixed records followed by
    fifty generated ones. *)
Definition allMockAvatars : list Avatar :=
  [ {| avatar_id := "Abigail_expressive_2024112501";
       avatar_name := "Abigail (Upper Body)";
       gender := female;
       preview_image_url := avatar_preview_image;
       preview_video_url := avatar_preview_video;
       premium := false;
       type := None; tags := None; default_voice_id := None |};
    {| avatar_id := "Abigail_standing_office_front";
       avatar_name := "Abigail Office Front";
       gender := female;
       preview_image_url :=
         "https://files2.heygen.ai/avatar/v3/463208b6cad140d2b263535826838e3a_39240/preview_target.webp";
       preview_video_url :=
         "https://files2.heygen.ai/avatar/v3/463208b6cad140d2b263535826838e3a_39240/preview_video_target.mp4";
       premium := false;
       type := None; tags := None; default_voice_id := None |};
    {| avatar_id := "Abigail_standing_office_side";
       avatar_name := "Abigail Office Side";
       gender := female;
       preview_image_url :=
         "https://files2.heygen.ai/avatar/v3/9886d46db7f24260bb219c756ca0d759_39250/preview_target.webp";
       preview_video_url :=
         "https://files2.heygen.ai/avatar/v3/9886d46db7f24260bb219c756ca0d759_39250/preview_video_target.mp4";
       premium := false;
       type := None; tags := None; default_voice_id := None |} ]
  ++ map generated_avatar (seq 0 50).

(** The group filter of [getMockAvatarData]: the pool itself when
    [groupId] is falsy or ['all'], otherwise a window of fifteen indices
    placed by the number read from the identifier. *)
Definition filteredAvatars (groupId : option string) : list Avatar :=
  match groupId with
  | Some g =>
      if truthy_string groupId && negb (String.eqb g "all") then
        let groupIndex := or_default (parseInt (replace g "group_" "")) 1 in
        let startIndex := (groupIndex - 1) * 15 in
        let endIndex := startIndex + 15 in
        slice allMockAvatars startIndex endIndex
      else allMockAvatars
  | None => allMockAvatars
  end.

(** [getMockAvatarData]: the fallback page.  The function is [async]
    with no [await] and no [throw]: its promise is fulfilled with the
    value returned here. *)
Definition getMockAvatarData (params : PaginationParams)
    (groupId : option string) : AvatarResponse :=
  let filteredAvatars := filteredAvatars groupId in
  let startIndex := (page params - 1) * page_size params in
  let endIndex := startIndex + page_size params in
  let paginatedAvatars := slice filteredAvatars startIndex endIndex in
  let totalPages :=
    ceil_div (Z.of_nat (List.length filteredAvatars)) (page_size params) in
  {| error := null;
     data := {| avatars := paginatedAvatars;
                count := Z.of_nat (List.length paginatedAvatars);
                total := Z.of_nat (List.length filteredAvatars);
                data_page := page params;
                data_page_size := page_size params;
                total_pages := totalPages |} |}.

Definition mockGroups : list AvatarGroup :=
  [ {| avatar_group_id := "group_1";
       title := "Business Professionals";
       description :=
         Some "Professional avatars for corporate presentations and business content";
       avatar_count := 15;
       is_public := true;
       created_at := "2024-01-15T10:00:00Z";
       updated_at := "2024-01-20T14:30:00Z";
       group_preview_image_url := Some avatar_preview_image |};
    {| avatar_group_id := "group_2";
       title := "Casual & Friendly";
       description :=
         Some "Approachable avatars perfect for educational content and casual presentations";
       avatar_count := 12;
       is_public := true;
       created_at := "2024-01-10T09:15:00Z";
       updated_at := "2024-01-18T16:45:00Z";
       group_preview_image_url :=
         Some "https://files2.heygen.ai/avatar/v3/463208b6cad140d2b263535826838e3a_39240/preview_target.webp" |};
    {| avatar_group_id := "group_3";
       title := "Healthcare & Medical";
       description :=
         Some "Professional medical avatars for healthcare communications";
       avatar_count := 8;
       is_public := true;
       created_at := "2024-01-12T11:20:00Z";
       updated_at := "2024-01-22T13:10:00Z";
       group_preview_image_url :=
         Some "https://files2.heygen.ai/avatar/v3/9886d46db7f24260bb219c756ca0d759_39250/preview_target.webp" |};
    {| avatar_group_id := "group_4";
       title := "Creative & Artistic";
       description :=
         Some "Unique and creative avatars for artistic and innovative content";
       avatar_count := 10;
       is_public := false;
       created_at := "2024-01-08T15:30:00Z";
       updated_at := "2024-01-25T10:20:00Z";
       group_preview_image_url := None |} ].

(** [getMockGroupData]: the fallback group list. *)
Definition getMockGroupData : AvatarGroupResponse :=
  {| groups_error := null;
     groups_data := {| avatar_groups := mockGroups;
                       groups_count := Z.of_nat (List.length mockGroups);
                       groups_total := Z.of_nat (List.length mockGroups) |} |}.

(** [getMockAvatarDetails]: the fallback detail record; only the
    identifier, the name and the gender depend on [avatarId]. *)
Definition getMockAvatarDetails (avatarId : string) : AvatarDetailsResponse :=
  let mockDetails :=
    {| base :=
         {| avatar_id := avatarId;
            avatar_name :=
              if includes avatarId "Abigail" then "Abigail Professional"
              else "Professional Avatar";
            gender :=
              if includes avatarId "female" || includes avatarId "Abigail"
              then female else male;
            preview_image_url := avatar_preview_image;
            preview_video_url := avatar_preview_video;
            premium := false;
            type := Some "professional";
            tags := Some ["business"; "professional"; "corporate"];
            default_voice_id := Some "voice_001" |};
       details_description :=
         Some "A professional avatar perfect for business presentations and corporate communications. Features natural expressions and professional attire.";
       details_created_at := Some "2024-01-15T10:00:00Z";
       details_updated_at := Some "2024-01-20T14:30:00Z";
       status := Some "active";
       languages := Some ["en-US"; "en-GB"; "es-ES"; "fr-FR"];
       voices :=
         Some [ {| voice_id := "voice_001";
                   voice_name := "Professional Female";
                   language := "en-US";
                   voice_gender := female;
                   preview_audio_url := Some "https://example.com/voice_preview.mp3" |};
                {| voice_id := "voice_002";
                   voice_name := "Business Casual";
                   language := "en-US";
                   voice_gender := female;
                   preview_audio_url := Some "https://example.com/voice_preview2.mp3" |} ];
       usage_stats := Some {| total_videos := 1250; total_duration := 45600 |} |} in
  {| details_error := null; details_data := mockDetails |}.

(** The body shared by the three [try] blocks once the request is built:
    [await fetch(...)], the [response.ok] test and [await response.json()]. *)
Definition request_json {A : Type} (fetch : Fetch A) (req : Request)
    : Completion exn A :=
  bind (fetch req) (fun response =>
    if negb (ok response)
    then Throw (Error ("HTTP error! status: " ++ toString (http_status response)))
    else bind (json response) (fun data => Return data)).

(** The request built at the head of the [try] block of [fetchAvatars]:
    [avatar_group_id] is appended only for a truthy [groupId]. *)
Definition avatars_request (params : PaginationParams)
    (groupId : option string) : Request :=
  let queryParams : list (string * string) :=
    ([("page", toString (page params));
      ("page_size", toString (page_size params))]
     ++ match groupId with
        | Some g => if truthy_string groupId then [("avatar_group_id", g)] else []
        | None => []
        end)%list in
  {| url := API_BASE_URL ++ "/avatars"; queryParams := queryParams |}.

Definition groups_request (includePublic : bool) : Request :=
  {| url := API_BASE_URL ++ "/avatar_group.list";
     queryParams := [("include_public", if includePublic then "true" else "false")] |}.

Definition details_request (avatarId : string) : Request :=
  {| url := API_BASE_URL ++ "/avatar/" ++ avatarId ++ "/details";
     queryParams := [] |}.

(** [fetchAvatars(params, groupId)]. *)
Definition fetchAvatars (fetch : Fetch AvatarResponse)
    (params : PaginationParams) (groupId : option string)
    : Completion exn AvatarResponse :=
  try_catch
    (request_json fetch (avatars_request params groupId))
    (fun _ => Return (getMockAvatarData params groupId)).

(** [fetchAvatarGroups(includePublic)]. *)
Definition fetchAvatarGroups (fetch : Fetch AvatarGroupResponse)
    (includePublic : bool) : Completion exn AvatarGroupResponse :=
  try_catch
    (request_json fetch (groups_request includePublic))
    (fun _ => Return getMockGroupData).

(** [fetchAvatarDetails(avatarId)]. *)
Definition fetchAvatarDetails (fetch : Fetch AvatarDetailsResponse)
    (avatarId : string) : Completion exn AvatarDetailsResponse :=
  try_catch
    (request_json fetch (details_request avatarId))
    (fun _ => Return (getMockAvatarDetails avatarId)).

(** The three operations of the client seen as one interface: an
    operation with its arguments, the transport it runs on (the global
    [fetch], at the three body types), and its result. *)
Inductive Operation : Type :=
| FetchAvatars (params : PaginationParams) (groupId : option string)
| FetchAvatarGroups (includePublic : bool)
| FetchAvatarDetails (avatarId : string).

Inductive Result : Type :=
| Avatars (r : AvatarResponse)
| Groups (r : AvatarGroupResponse)
| Details (r : AvatarDetailsResponse).

Record Transport : Type := {
  fetch_avatars : Fetch AvatarResponse;
  fetch_groups : Fetch AvatarGroupResponse;
  fetch_details : Fetch AvatarDetailsResponse
}.

Definition call (t : Transport) (op : Operation) : Completion exn Result :=
  match op with
  | FetchAvatars params groupId =>
      bind (fetchAvatars (fetch_avatars t) params groupId) (fun r => Return (Avatars r))
  | FetchAvatarGroups includePublic =>
      bind (fetchAvatarGroups (fetch_groups t) includePublic) (fun r => Return (Groups r))
  | FetchAvatarDetails avatarId =>
      bind (fetchAvatarDetails (fetch_details t) avatarId) (fun r => Return (Details r))
  end.

(** The substitute result of each operation. *)
Definition fallback (op : Operation) : Result :=
  match op with
  | FetchAvatars params groupId => Avatars (getMockAvatarData params groupId)
  | FetchAvatarGroups _ => Groups getMockGroupData
  | FetchAvatarDetails avatarId => Details (getMockAvatarDetails avatarId)
  end.

(** The transport fails on the request of [op]. *)
Definition fails_on (t : Transport) (op : Operation) : Prop :=
  match op with
  | FetchAvatars params groupId =>
      transport_failed (fetch_avatars t (avatars_request params groupId))
  | FetchAvatarGroups includePublic =>
      transport_failed (fetch_groups t (groups_request includePublic))
  | FetchAvatarDetails avatarId =>
      transport_failed (fetch_details t (details_request avatarId))
  end.

(** A transport on which every request is rejected, as when the
    network is down. *)
Definition offline : Transport :=
  {| fetch_avatars := fun _ => Throw (Error "Failed to fetch");
     fetch_groups := fun _ => Throw (Error "Failed to fetch");
     fetch_details := fun _ => Throw (Error "Failed to fetch") |}.

(** A transport that answers every request with the given status and an
    unreadable body. *)
Definition answering (status : Z) : Transport :=
  {| fetch_avatars := fun _ =>
       Return {| ok := (200 <=? status) && (status <=? 299);
                 http_status := status; json := Throw NonError |};
     fetch_groups := fun _ =>
       Return {| ok := (200 <=? status) && (status <=? 299);
                 http_status := status; json := Throw NonError |};
     fetch_details := fun _ =>
       Return {| ok := (200 <=? status) && (status <=? 299);
                 http_status := status; json := Throw NonError |} |}.

End HeyGenService.

(** ** The orchestrator: the state and handlers of [AvatarGallery] *)

Module AvatarGallery.
Import JS.

Inductive ViewMode : Type := view_avatars | view_groups.

(** The values held by the component's [useState] cells. *)
Record State : Type := {
  avatars : list Types.Avatar;
  groups : list Types.AvatarGroup;
  loading : bool;
  groupsLoading : bool;
  error : option string;
  viewMode : ViewMode;
  selectedAvatarId : option string;
  filters : Types.FilterOptions;
  currentPage : Z;
  totalPages : number;
  totalItems : Z;
  pageSize : Z
}.

(** The initial values given to [useState]. *)
Definition initial : State :=
  {| avatars := [];
     groups := [];
     loading := true;
     groupsLoading := true;
     error := None;
     viewMode := view_avatars;
     selectedAvatarId := None;
     filters := {| Types.gender_filter := Types.all;
                   Types.premiumOnly := false;
                   Types.selectedGroup := None |};
     currentPage := 1;
     totalPages := Int 1;
     totalItems := 0;
     pageSize := 20 |}.

(** The state setters; [pageSize] has none. *)
Definition setAvatars (v : list Types.Avatar) (s : State) : State :=
  {| avatars := v; groups := groups s; loading := loading s;
     groupsLoading := groupsLoading s; error := error s; viewMode := viewMode s;
     selectedAvatarId := selectedAvatarId s; filters := filters s;
     currentPage := currentPage s; totalPages := totalPages s;
     totalItems := totalItems s; pageSize := pageSize s |}.
Definition setGroups (v : list Types.AvatarGroup) (s : State) : State :=
  {| avatars := avatars s; groups := v; loading := loading s;
     groupsLoading := groupsLoading s; error := error s; viewMode := viewMode s;
     selectedAvatarId := selectedAvatarId s; filters := filters s;
     currentPage := currentPage s; totalPages := totalPages s;
     totalItems := totalItems s; pageSize := pageSize s |}.
Definition setLoading (v : bool) (s : State) : State :=
  {| avatars := avatars s; groups := groups s; loading := v;
     groupsLoading := groupsLoading s; error := error s; viewMode := viewMode s;
     selectedAvatarId := selectedAvatarId s; filters := filters s;
     currentPage := currentPage s; totalPages := totalPages s;
     totalItems := totalItems s; pageSize := pageSize s |}.
Definition setGroupsLoading (v : bool) (s : State) : State :=
  {| avatars := avatars s; groups := groups s; loading := loading s;
     groupsLoading := v; error := error s; viewMode := viewMode s;
     selectedAvatarId := selectedAvatarId s; filters := filters s;
     currentPage := currentPage s; totalPages := totalPages s;
     totalItems := totalItems s; pageSize := pageSize s |}.
Definition setError (v : option string) (s : State) : State :=
  {| avatars := avatars s; groups := groups s; loading := loading s;
     groupsLoading := groupsLoading s; error := v; viewMode := viewMode s;
     selectedAvatarId := selectedAvatarId s; filters := filters s;
     currentPage := currentPage s; totalPages := totalPages s;
     totalItems := totalItems s; pageSize := pageSize s |}.
Definition setViewMode (v : ViewMode) (s : State) : State :=
  {| avatars := avatars s; groups := groups s; loading := loading s;
     groupsLoading := groupsLoading s; error := error s; viewMode := v;
     selectedAvatarId := selectedAvatarId s; filters := filters s;
     currentPage := currentPage s; totalPages := totalPages s;
     totalItems := totalItems s; pageSize := pageSize s |}.
Definition setSelectedAvatarId (v : option string) (s : State) : State :=
  {| avatars := avatars s; groups := groups s; loading := loading s;
     groupsLoading := groupsLoading s; error := error s; viewMode := viewMode s;
     selectedAvatarId := v; filters := filters s;
     currentPage := currentPage s; totalPages := totalPages s;
     totalItems := totalItems s; pageSize := pageSize s |}.
Definition setFilters (v : Types.FilterOptions) (s : State) : State :=
  {| avatars := avatars s; groups := groups s; loading := loading s;
     groupsLoading := groupsLoading s; error := error s; viewMode := viewMode s;
     selectedAvatarId := selectedAvatarId s; filters := v;
     currentPage := currentPage s; totalPages := totalPages s;
     totalItems := totalItems s; pageSize := pageSize s |}.
Definition setCurrentPage (v : Z) (s : State) : State :=
  {| avatars := avatars s; groups := groups s; loading := loading s;
     groupsLoading := groupsLoading s; error := error s; viewMode := viewMode s;
     selectedAvatarId := selectedAvatarId s; filters := filters s;
     currentPage := v; totalPages := totalPages s;
     totalItems := totalItems s; pageSize := pageSize s |}.
Definition setTotalPages (v : number) (s : State) : State :=
  {| avatars := avatars s; groups := groups s; loading := loading s;
     groupsLoading := groupsLoading s; error := error s; viewMode := viewMode s;
     selectedAvatarId := selectedAvatarId s; filters := filters s;
     currentPage := currentPage s; totalPages := v;
     totalItems := totalItems s; pageSize := pageSize s |}.
Definition setTotalItems (v : Z) (s : State) : State :=
  {| avatars := avatars s; groups := groups s; loading := loading s;
     groupsLoading := groupsLoading s; error := error s; viewMode := viewMode s;
     selectedAvatarId := selectedAvatarId s; filters := filters s;
     currentPage := currentPage s; totalPages := totalPages s;
     totalItems := v; pageSize := pageSize s |}.

(** What a handler asks of the world outside the component.  A call of
    the catalog client is asynchronous: the command records the call and
    the [resetPage] argument its continuation will need. *)
Inductive Command : Type :=
| CallFetchAvatars (paginationParams : Types.PaginationParams)
    (groupId : option string) (resetPage : bool)
| CallFetchAvatarGroups (includePublic : bool)
| ScrollToTop
| ConsoleWarn (message : string)
| ConsoleError (message : string).

(** A piece of handler code.  It reads the state of the render that
    created it (the values its closure captured), writes to the pending
    state through the setters, and issues commands in order. *)
Definition Handler (A : Type) : Type :=
  State -> State -> A * State * list Command.

Definition ret {A : Type} (a : A) : Handler A :=
  fun _ pending => (a, pending, []).

Definition seq_bind {A B : Type} (h : Handler A) (k : A -> Handler B) : Handler B :=
  fun rendered pending =>
    let '(a, pending1, cmds1) := h rendered pending in
    let '(b, pending2, cmds2) := k a rendered pending1 in
    (b, pending2, (cmds1 ++ cmds2)%list).

(** Read a captured value. *)
Definition read {A : Type} (field : State -> A) : Handler A :=
  fun rendered pending => (field rendered, pending, []).

(** Call a setter; the functional form [setX(prev => ...)] is the same
    with an update that reads its argument. *)
Definition set (update : State -> State) : Handler unit :=
  fun _ pending => (tt, update pending, []).

Definition issue (c : Command) : Handler unit :=
  fun _ pending => (tt, pending, [c]).

Definition skip : Handler unit := ret tt.

Declare Scope handler_scope.
Delimit Scope handler_scope with handler.
Notation "x <- h ;; k" := (seq_bind h (fun x => k))
  (at level 61, h at next level, right associativity) : handler_scope.
Notation "h ;; k" := (seq_bind h (fun _ => k))
  (at level 61, right associativity) : handler_scope.
Local Open Scope handler_scope.

(** [fetchGroups], up to its [await]. *)
Definition fetchGroups : Handler unit :=
  set (setGroupsLoading true) ;;
  issue (CallFetchAvatarGroups false).

(** [fetchGroups], from the settled promise on: the rest of the [try]
    block, the [catch] and the [finally]. *)
Definition fetchGroups_settled
    (outcome : Completion exn Types.AvatarGroupResponse) : Handler unit :=
  match outcome with
  | Return response =>
      if truthy (Types.groups_error response) then
        issue (ConsoleWarn "Failed to fetch avatar groups, continuing without groups") ;;
        set (setGroups [])
      else
        set (setGroups (Types.avatar_groups (Types.groups_data response)))
  | Throw _ =>
      issue (ConsoleWarn "Error fetching avatar groups:") ;;
      set (setGroups [])
  end ;;
  set (setGroupsLoading false).

(** [fetchAvatars(page, resetPage)], up to its [await]. *)
Definition fetchAvatars (page : Z) (resetPage : bool) : Handler unit :=
  set (setLoading true) ;;
  set (setError None) ;;
  pageSize <- read pageSize ;;
  filters <- read filters ;;
  let paginationParams :=
    {| Types.page := if resetPage then 1 else page;
       Types.page_size := pageSize |} in
  issue (CallFetchAvatars paginationParams (Types.selectedGroup filters) resetPage).

(** [fetchAvatars], from the settled promise on. *)
Definition fetchAvatars_settled (resetPage : bool)
    (outcome : Completion exn Types.AvatarResponse) : Handler unit :=
  let try_block : Completion exn (Handler unit) :=
    bind outcome (fun response =>
      if truthy (Types.error response)
      then Throw (Error "Failed to fetch avatars from API")
      else Return (
        set (setAvatars (Types.avatars (Types.data response))) ;;
        set (setTotalPages (Types.total_pages (Types.data response))) ;;
        set (setTotalItems (Types.total (Types.data response))) ;;
        if resetPage then set (setCurrentPage 1)
        else set (setCurrentPage (Types.data_page (Types.data response))))) in
  match try_block with
  | Return rest => rest
  | Throw err =>
      issue (ConsoleError "Error fetching avatars:") ;;
      set (setError (Some match err with
                          | Error message => message
                          | NonError => "Unknown error occurred"
                          end))
  end ;;
  set (setLoading false).

(** The first effect, with no dependencies: it runs once, on mount. *)
Definition effect_mount : Handler unit :=
  fetchGroups ;;
  fetchAvatars 1 true.

(** The second effect, with dependency [filters.selectedGroup]. *)
Definition effect_selectedGroup : Handler unit :=
  groupsLoading <- read groupsLoading ;;
  if negb groupsLoading then fetchAvatars 1 true else skip.

(** The [useMemo] value [filteredAvatars]; the state always holds an
    array, so the [!avatars] test is never taken. *)
Definition filteredAvatars (avatars : list Types.Avatar)
    (filters : Types.FilterOptions) : list Types.Avatar :=
  filter (fun avatar =>
    if match Types.gender_filter filters with
       | Types.all => false
       | Types.only g => negb (Types.Gender_eqb (Types.gender avatar) g)
       end
    then false
    else if Types.premiumOnly filters && negb (Types.premium avatar)
    then false
    else true) avatars.

Definition handleFiltersChange (newFilters : Types.FilterOptions) : Handler unit :=
  set (setFilters newFilters).

(** The [onClick] of the "Clear Filters" button. *)
Definition handleClearFilters : Handler unit :=
  set (setFilters {| Types.gender_filter := Types.all;
                     Types.premiumOnly := false;
                     Types.selectedGroup := None |}).

(** The update [prev => ({ ...prev, selectedGroup: groupId })]. *)
Definition with_selectedGroup (groupId : option string)
    (prev : Types.FilterOptions) : Types.FilterOptions :=
  {| Types.gender_filter := Types.gender_filter prev;
     Types.premiumOnly := Types.premiumOnly prev;
     Types.selectedGroup := groupId |}.

Definition handleGroupChange (groupId : option string) : Handler unit :=
  set (fun s => setFilters (with_selectedGroup groupId (filters s)) s).

Definition handleGroupSelect (groupId : string) : Handler unit :=
  set (fun s => setFilters (with_selectedGroup (Some groupId) (filters s)) s) ;;
  set (setViewMode view_avatars).

Definition handlePageChange (page : Z) : Handler unit :=
  currentPage <- read currentPage ;;
  totalPages <- read totalPages ;;
  if negb (page =? currentPage) && (page >=? 1) && int_leb page totalPages then
    fetchAvatars page false ;;
    issue ScrollToTop
  else skip.

Definition handleRetry : Handler unit :=
  viewMode <- read viewMode ;;
  match viewMode with
  | view_groups => fetchGroups
  | view_avatars =>
      currentPage <- read currentPage ;;
      fetchAvatars currentPage false
  end.

Definition handleViewModeChange (mode : ViewMode) : Handler unit :=
  set (setViewMode mode).

Definition handleShowAvatarDetails (avatarId : string) : Handler unit :=
  set (setSelectedAvatarId (Some avatarId)).

Definition handleCloseAvatarDetails : Handler unit :=
  set (setSelectedAvatarId None).

(** [Object.is] on the dependency [filters.selectedGroup]. *)
Definition same_group (a b : option string) : bool :=
  match a, b with
  | Some x, Some y => String.eqb x y
  | None, None => true
  | _, _ => false
  end.

(** One turn of the component: the handler runs against the rendered
    state, React renders the pending state, and the effect on
    [filters.selectedGroup] runs in that render when the dependency
    differs from the previous render's. *)
Definition dispatch (h : Handler unit) (rendered : State) : State * list Command :=
  let '(_, next, cmds) := h rendered rendered in
  if same_group (Types.selectedGroup (filters rendered))
                (Types.selectedGroup (filters next))
  then (next, cmds)
  else
    let '(_, next', cmds') := effect_selectedGroup next next in
    (next', (cmds ++ cmds')%list).

(** The first render: both effects run against the initial state. *)
Definition mount : State * list Command :=
  let '(_, next, cmds) := (effect_mount ;; effect_selectedGroup) initial initial in
  (next, cmds).

(** The calls of [HeyGenService.fetchAvatars] among the commands. *)
Definition avatar_fetches (cmds : list Command)
    : list (Types.PaginationParams * option string) :=
  flat_map (fun c =>
    match c with
    | CallFetchAvatars p g _ => [(p, g)]
    | _ => []
    end) cmds.

(** The calls of the catalog client among the commands. *)
Definition is_fetch (c : Command) : bool :=
  match c with
  | CallFetchAvatars _ _ _ | CallFetchAvatarGroups _ => true
  | _ => false
  end.

End AvatarGallery.

(** ** The formatting helpers: [class AvatarUtils] *)

Module AvatarUtils.
Import JS.

(** The character classes [[a-z]] and [[A-Z]] of a regular expression
    without flags. *)
Definition is_lower (c : ascii) : bool :=
  let n := nat_of_ascii c in (Nat.leb 97 n && Nat.leb n 122)%bool.

Definition is_upper (c : ascii) : bool :=
  let n := nat_of_ascii c in (Nat.leb 65 n && Nat.leb n 90)%bool.

(** [formatAvatarName(name)]: [name.replace(/([a-z])([A-Z])/g, '$1 $2')].
    The scan goes from left to right and resumes after each match. *)
Fixpoint formatAvatarName (name : string) : string :=
  match name with
  | String c1 (String c2 rest as tail) =>
      if is_lower c1 && is_upper c2
      then String c1 (String " " (String c2 (formatAvatarName rest)))
      else String c1 (formatAvatarName tail)
  | _ => name
  end.

(** [s.split(' ')]: the pieces between the spaces, empty pieces kept. *)
Fixpoint split_space (s : string) : list string :=
  match s with
  | EmptyString => [EmptyString]
  | String c r =>
      if Ascii.eqb c " " then EmptyString :: split_space r
      else match split_space r with
           | w :: ws => String c w :: ws
           | [] => [String c EmptyString]
           end
  end.

(** [word.charAt(0)]: the first character, or the empty string. *)
Definition charAt0 (word : string) : string :=
  match word with
  | EmptyString => EmptyString
  | String c _ => String c EmptyString
  end.

(** [words.join('')]. *)
Definition join (words : list string) : string :=
  fold_right String.append EmptyString words.

(** [toUpperCase] on a code unit below 128; the other code units are
    left alone here, so the model of [getAvatarInitials] stands for names
    made of code units below 128. *)
Definition upper_char (c : ascii) : ascii :=
  if is_lower c then ascii_of_nat (nat_of_ascii c - 32) else c.

Fixpoint toUpperCase (s : string) : string :=
  match s with
  | EmptyString => EmptyString
  | String c r => String (upper_char c) (toUpperCase r)
  end.

(** A string made of code units below 128. *)
Fixpoint is_ascii (s : string) : bool :=
  match s with
  | EmptyString => true
  | String c r => (Nat.ltb (nat_of_ascii c) 128 && is_ascii r)%bool
  end.

(** [getAvatarInitials(name)]. *)
Definition getAvatarInitials (name : string) : string :=
  String.substring 0 2
    (toUpperCase (join (map charAt0 (split_space name)))).

(** [s.trimEnd()]. *)
Fixpoint trimEnd (s : string) : string :=
  match s with
  | EmptyString => EmptyString
  | String c r =>
      match trimEnd r with
      | EmptyString => if isStrWhiteSpaceChar c then EmptyString else String c EmptyString
      | String _ _ as r' => String c r'
      end
  end.

(** [s.trim()]; the characters removed are those [parseInt] skips. *)
Definition trim (s : string) : string := trimEnd (trimStart s).

(** [formatGroupTitle(title)]. *)
Definition formatGroupTitle (title : string) : string := trim title.

(** [truncateDescription(description, maxLength)]; [maxLength] is 100
    when the caller leaves it out. *)
Definition default_maxLength : Z := 100.

Definition truncateDescription (description : option string) (maxLength : Z) : string :=
  match description with
  | Some d =>
      if negb (truthy_string description) then ""
      else if Z.of_nat (String.length d) <=? maxLength then d
      else trim (String.substring 0 (Z.to_nat maxLength) d) ++ "..."
  | None => ""
  end.



End AvatarUtils.

(** ** The page bar: [PaginationControls] *)

Module PaginationControls.

(** The props the computations read; they are taken as integers. *)
Record Props : Type := {
  currentPage : Z;
  totalPages : Z;
  totalItems : Z;
  pageSize : Z
}.

(** The values pushed by [for (let i = lo; i <= hi; i++)]. *)
Definition interval (lo hi : Z) : list Z :=
  map (fun k => lo + Z.of_nat k) (seq 0 (Z.to_nat (hi - lo + 1))).

(** [[...new Set(range)]]: the first occurrence of each value, in
    insertion order; [seen] holds the values met so far. *)
Fixpoint unique_from (seen range : list Z) : list Z :=
  match range with
  | [] => []
  | x :: rest =>
      if existsb (Z.eqb x) seen then unique_from seen rest
      else x :: unique_from (x :: seen) rest
  end.

Definition unique (range : list Z) : list Z := unique_from [] range.

(** [.sort((a, b) => a - b)]: the ascending arrangement of the values. *)
Fixpoint insert (x : Z) (sorted : list Z) : list Z :=
  match sorted with
  | [] => [x]
  | y :: rest => if x <=? y then x :: sorted else y :: insert x rest
  end.

Fixpoint sort (l : list Z) : list Z :=
  match l with
  | [] => []
  | x :: rest => insert x (sort rest)
  end.

(** The array [range] of [getVisiblePages] before it is made unique. *)
Definition range (p : Props) : list Z :=
  let delta := 2 in
  ([1]
   ++ interval (Z.max 2 (currentPage p - delta))
               (Z.min (totalPages p - 1) (currentPage p + delta))
   ++ (if totalPages p >? 1 then [totalPages p] else []))%list.

(** The loop that puts ['...'] where two neighbours are more than one
    apart; an item is a page number or that string. *)
Fixpoint with_dots (prev : Z) (uniqueRange : list Z) : list (Z + string) :=
  match uniqueRange with
  | [] => []
  | page :: rest =>
      ((if page - prev >? 1 then [inr "..."] else [])
       ++ inl page :: with_dots page rest)%list
  end.

(** [getVisiblePages()]; the last step keeps the items that are numbers. *)
Definition getVisiblePages (p : Props) : list Z :=
  let uniqueRange := sort (unique (range p)) in
  let rangeWithDots := with_dots 0 uniqueRange in
  flat_map (fun item => match item with inl page => [page] | inr _ => [] end)
    rangeWithDots.

(** [getItemRange()]: the pair [(start, end)]. *)
Definition getItemRange (p : Props) : Z * Z :=
  let start := (currentPage p - 1) * pageSize p + 1 in
  let stop := Z.min (currentPage p * pageSize p) (totalItems p) in
  (start, stop).

End PaginationControls.

(** ** The group dropdown: [GroupSelector] *)

Module GroupSelector.

(** The [value] shown by the dropdown: [selectedGroup || 'all']. *)
Definition select_value (selectedGroup : option string) : string :=
  match selectedGroup with
  | Some g => if JS.truthy_string selectedGroup then g else "all"
  | None => "all"
  end.

(** The values of the options: ['all'] and the identifiers of the groups. *)
Definition option_values (groups : list Types.AvatarGroup) : list string :=
  "all" :: map Types.avatar_group_id groups.

(** [handleGroupChange]: the argument it passes to [onGroupChange] for
    the chosen [event.target.value]. *)
Definition handleGroupChange (value : string) : option string :=
  if String.eqb value "all" then None else Some value.

End GroupSelector.

(** ** The filter bar: [FilterControls] *)

Module FilterControls.

(** [handleGenderChange(gender)]: the argument it passes to
    [onFiltersChange], [{ ...filters, gender }]. *)
Definition handleGenderChange (filters : Types.FilterOptions)
    (gender : Types.GenderFilter) : Types.FilterOptions :=
  {| Types.gender_filter := gender;
     Types.premiumOnly := Types.premiumOnly filters;
     Types.selectedGroup := Types.selectedGroup filters |}.

(** [handlePremiumToggle()]: the argument it passes to [onFiltersChange],
    [{ ...filters, premiumOnly: !filters.premiumOnly }]. *)
Definition handlePremiumToggle (filters : Types.FilterOptions) : Types.FilterOptions :=
  {| Types.gender_filter := Types.gender_filter filters;
     Types.premiumOnly := negb (Types.premiumOnly filters);
     Types.selectedGroup := Types.selectedGroup filters |}.

(** [getSelectedGroupName()]. *)
Definition getSelectedGroupName (filters : Types.FilterOptions)
    (groups : list Types.AvatarGroup) : string :=
  match Types.selectedGroup filters with
  | Some id =>
      if negb (JS.truthy_string (Types.selectedGroup filters)) then "All Groups"
      else match find (fun g => String.eqb (Types.avatar_group_id g) id) groups with
           | Some selectedGroup => Types.title selectedGroup
           | None => "Unknown Group"
           end
  | None => "All Groups"
  end.

End FilterControls.

(** ** What [AvatarGallery] renders, and how its calls are answered *)

Module GalleryView.
Import JS AvatarGallery.

(** The part of the avatars view below the filter bar. *)
Inductive Grid : Type :=
| Cards (visible : list Types.Avatar)
| EmptyState          (* the error display "No avatars found", with Retry *)
| NoResults.          (* "No avatars match your filters", with Clear Filters *)

(** The top-level alternatives of the returned element. *)
Inductive Screen : Type :=
| Spinner
| ErrorPanel (message : string)          (* with Retry *)
| GroupCards (groups : list Types.AvatarGroup)
| NoGroups
| AvatarsView (overlay : bool) (grid : Grid) (pagination : bool).

(** [xs.length === 0] (the state always holds arrays). *)
Definition is_empty {A : Type} (xs : list A) : bool :=
  match xs with [] => true | _ :: _ => false end.

(** [totalPages > 1]. *)
Definition more_than_one (totalPages : number) : bool :=
  match totalPages with
  | Int t => t >? 1
  | Infinity => true
  | NaN => false
  end.

(** The [return] statements of the component, in order. *)
Definition render (st : State) : Screen :=
  if (loading st && is_empty (avatars st))
     || (groupsLoading st && is_empty (groups st)
         && match viewMode st with view_groups => true | view_avatars => false end)
  then Spinner
  else
    match error st, viewMode st with
    | Some message, view_avatars =>
        if truthy_string (error st) && is_empty (avatars st)
        then ErrorPanel message
        else
          AvatarsView
            (loading st && negb (is_empty (avatars st)))
            (if negb (is_empty (filteredAvatars (avatars st) (filters st)))
             then Cards (filteredAvatars (avatars st) (filters st))
             else if is_empty (avatars st) && negb (loading st) then EmptyState
             else NoResults)
            (more_than_one (totalPages st))
    | None, view_avatars =>
        AvatarsView
          (loading st && negb (is_empty (avatars st)))
          (if negb (is_empty (filteredAvatars (avatars st) (filters st)))
           then Cards (filteredAvatars (avatars st) (filters st))
           else if is_empty (avatars st) && negb (loading st) then EmptyState
           else NoResults)
          (more_than_one (totalPages st))
    | _, view_groups =>
        if negb (is_empty (groups st)) then GroupCards (groups st) else NoGroups
    end.

(** The screen offers the Retry button. *)
Definition offers_retry (s : Screen) : bool :=
  match s with
  | ErrorPanel _ | AvatarsView _ EmptyState _ => true
  | _ => false
  end.

(** The props handed to [PaginationControls]. *)
Definition pagination_props (st : State) (totalPages : Z) : PaginationControls.Props :=
  {| PaginationControls.currentPage := currentPage st;
     PaginationControls.totalPages := totalPages;
     PaginationControls.totalItems := totalItems st;
     PaginationControls.pageSize := pageSize st |}.

(** The turn in which the promise of an issued call settles: the call
    is answered by the catalog client over the transport [t], and the
    continuation of the handler that awaited it runs. *)
Definition answer (t : HeyGenService.Transport) (c : Command) (st : State)
    : State * list Command :=
  match c with
  | CallFetchAvatars paginationParams groupId resetPage =>
      dispatch (fetchAvatars_settled resetPage
                  (HeyGenService.fetchAvatars (HeyGenService.fetch_avatars t)
                     paginationParams groupId)) st
  | CallFetchAvatarGroups includePublic =>
      dispatch (fetchGroups_settled
                  (HeyGenService.fetchAvatarGroups (HeyGenService.fetch_groups t)
                     includePublic)) st
  | _ => (st, [])
  end.

(** The calls are answered one after the other, in the given order. *)
Fixpoint answer_all (t : HeyGenService.Transport) (cs : list Command) (st : State)
    : State :=
  match cs with
  | [] => st
  | c :: rest => answer_all t rest (fst (answer t c st))
  end.

End GalleryView.

(** ** The detail dialog: [AvatarDetailsModal] *)

Module AvatarDetailsModal.
Import JS.

Record Props : Type := {
  avatarId : string;
  isOpen : bool
}.

Record State : Type := {
  details : option Types.AvatarDetails;
  loading : bool;
  error : option string;
  playingVoice : option string
}.

Definition initial : State :=
  {| details := None; loading := false; error := None; playingVoice := None |}.

Inductive Command : Type :=
| CallFetchAvatarDetails (avatarId : string)
| SetTimeout (milliseconds : Z)       (* its callback is [timeout_fired] *)
| ConsoleError (message : string)
| OnClose.

(** [fetchAvatarDetails], up to its [await]. *)
Definition fetchAvatarDetails (p : Props) (st : State) : State * list Command :=
  ({| details := details st; loading := true; error := None;
      playingVoice := playingVoice st |},
   [CallFetchAvatarDetails (avatarId p)]).

(** [fetchAvatarDetails], from the settled promise on. *)
Definition fetchAvatarDetails_settled
    (outcome : Completion exn Types.AvatarDetailsResponse) (st : State)
    : State * list Command :=
  let try_block : Completion exn Types.AvatarDetails :=
    bind outcome (fun response =>
      if truthy (Types.details_error response)
      then Throw (Error "Failed to fetch avatar details")
      else Return (Types.details_data response)) in
  match try_block with
  | Return data =>
      ({| details := Some data; loading := false; error := error st;
          playingVoice := playingVoice st |}, [])
  | Throw err =>
      ({| details := details st; loading := false;
          error := Some match err with
                        | Error message => message
                        | NonError => "Unknown error occurred"
                        end;
          playingVoice := playingVoice st |},
       [ConsoleError "Error fetching avatar details:"])
  end.







(** The turn in which the promise of an issued call settles, answered by
    the catalog client over the transport [t]. *)
Definition answer (t : HeyGenService.Transport) (c : Command) (st : State)
    : State * list Command :=
  match c with
  | CallFetchAvatarDetails id =>
      fetchAvatarDetails_settled
        (HeyGenService.fetchAvatarDetails (HeyGenService.fetch_details t) id) st
  | _ => (st, [])
  end.

End AvatarDetailsModal.

(** ** Definitions used to state the properties *)

(** The value of a decimal numeral read after the digits worth [acc]. *)
Fixpoint uint_value (d : Decimal.uint) (acc : Z) : Z :=
  match d with
  | Decimal.Nil => acc
  | Decimal.D0 d => uint_value d (10 * acc + 0)
  | Decimal.D1 d => uint_value d (10 * acc + 1)
  | Decimal.D2 d => uint_value d (10 * acc + 2)
  | Decimal.D3 d => uint_value d (10 * acc + 3)
  | Decimal.D4 d => uint_value d (10 * acc + 4)
  | Decimal.D5 d => uint_value d (10 * acc + 5)
  | Decimal.D6 d => uint_value d (10 * acc + 6)
  | Decimal.D7 d => uint_value d (10 * acc + 7)
  | Decimal.D8 d => uint_value d (10 * acc + 8)
  | Decimal.D9 d => uint_value d (10 * acc + 9)
  end.

(** [1 <= n <= totalPages], with [totalPages] a number: every [n >= 1]
    is below [Infinity], none is below [NaN]. *)
Definition page_in_range (n : Z) (totalPages : JS.number) : Prop :=
  match totalPages with
  | JS.Int t => 1 <= n <= t
  | JS.Infinity => 1 <= n
  | JS.NaN => False
  end.

(** The filter of the visible avatars in the words of the specification:
    an avatar is kept iff ([gender == 'all'] or [avatar.gender == gender])
    and ([!premiumOnly] or [avatar.premium]). *)
Definition keeps_spec (gender : Types.GenderFilter) (premiumOnly : bool)
    (avatar : Types.Avatar) : bool :=
  (match gender with
   | Types.all => true
   | Types.only g => Types.Gender_eqb (Types.gender avatar) g
   end)
  && (negb premiumOnly || Types.premium avatar).

(** The three ways of changing the selected group: [onFiltersChange],
    [onGroupChange] and the selection of a group card. *)
Inductive GroupAction : Type :=
| SetFilters (newFilters : Types.FilterOptions)
| GroupChange (groupId : option string)
| GroupSelect (groupId : string).

Definition handler_of (a : GroupAction) : AvatarGallery.Handler unit :=
  match a with
  | SetFilters newFilters => AvatarGallery.handleFiltersChange newFilters
  | GroupChange groupId => AvatarGallery.handleGroupChange groupId
  | GroupSelect groupId => AvatarGallery.handleGroupSelect groupId
  end.

Definition requested_group (a : GroupAction) : option string :=
  match a with
  | SetFilters newFilters => Types.selectedGroup newFilters
  | GroupChange groupId => groupId
  | GroupSelect groupId => Some groupId
  end.

(** Concrete sessions of the gallery, run on the fallback data with the
    fixed page size of 20. *)
Module Scenario.
Import JS Types AvatarGallery.

(** The state after the turn that settles a call of [fetchAvatars] with
    the fallback page for [(page, groupId)]. *)
Definition avatars_settle (page : Z) (resetPage : bool) (st : State) : State :=
  fst (dispatch
         (fetchAvatars_settled resetPage
            (Return (HeyGenService.getMockAvatarData
                       {| Types.page := page; page_size := pageSize st |}
                       (selectedGroup (filters st)))))
         st).

(** The state after the turn that settles [fetchGroups] with the
    fallback groups. *)
Definition groups_settle (st : State) : State :=
  fst (dispatch (fetchGroups_settled (Return HeyGenService.getMockGroupData)) st).

Definition after_mount : State := fst mount.

(** Groups and the first page of avatars have arrived. *)
Definition first_page : State :=
  avatars_settle 1 true (groups_settle after_mount).

(** From there, the user went to page 3. *)
Definition third_page : State :=
  avatars_settle 3 false (fst (dispatch (handlePageChange 3) first_page)).

(** The avatars arrived before the groups, and the user went to page 3
    while the groups were still loading. *)
Definition third_page_groups_pending : State :=
  avatars_settle 3 false
    (fst (dispatch (handlePageChange 3) (avatars_settle 1 true after_mount))).

(** The groups are being fetched again, by a retry from the groups view. *)
Definition groups_retry : State :=
  fst (dispatch handleRetry
         (fst (dispatch (handleViewModeChange view_groups) first_page))).

(** A response that reports a logical failure. *)
Definition failed_avatars : AvatarResponse :=
  {| Types.error := str "unauthorized";
     data := {| Types.avatars := []; count := 0; total := 0; data_page := 1;
                data_page_size := 20; total_pages := Int 0 |} |}.

Definition failed_groups : AvatarGroupResponse :=
  {| groups_error := str "unauthorized";
     groups_data := {| avatar_groups := []; groups_count := 0; groups_total := 0 |} |}.

End Scenario.

(** ** Definitions used to state the further properties *)

(** A lowercase letter is directly followed by an uppercase letter
    somewhere in [s]. *)
Fixpoint has_camel (s : string) : bool :=
  match s with
  | String c1 (String c2 _ as tail) =>
      (AvatarUtils.is_lower c1 && AvatarUtils.is_upper c2) || has_camel tail
  | _ => false
  end.

(** Every character of [s] passes the test. *)
Fixpoint all_chars (test : ascii -> bool) (s : string) : bool :=
  match s with
  | EmptyString => true
  | String c r => test c && all_chars test r
  end.

(** [s] starts, or ends, with a white space character. *)
Definition starts_with_space (s : string) : bool :=
  match s with
  | EmptyString => false
  | String c _ => JS.isStrWhiteSpaceChar c
  end.

Fixpoint ends_with_space (s : string) : bool :=
  match s with
  | EmptyString => false
  | String c EmptyString => JS.isStrWhiteSpaceChar c
  | String _ r => ends_with_space r
  end.

(** The transport answers the request of [op] with a success status and a
    body that reads as [r]. *)
Definition answers (t : HeyGenService.Transport) (op : HeyGenService.Operation)
    (r : HeyGenService.Result) : Prop :=
  match op, r with
  | HeyGenService.FetchAvatars params groupId, HeyGenService.Avatars body =>
      exists status,
        HeyGenService.fetch_avatars t (HeyGenService.avatars_request params groupId)
        = JS.Return {| HeyGenService.ok := true;
                       HeyGenService.http_status := status;
                       HeyGenService.json := JS.Return body |}
  | HeyGenService.FetchAvatarGroups includePublic, HeyGenService.Groups body =>
      exists status,
        HeyGenService.fetch_groups t (HeyGenService.groups_request includePublic)
        = JS.Return {| HeyGenService.ok := true;
                       HeyGenService.http_status := status;
                       HeyGenService.json := JS.Return body |}
  | HeyGenService.FetchAvatarDetails avatarId, HeyGenService.Details body =>
      exists status,
        HeyGenService.fetch_details t (HeyGenService.details_request avatarId)
        = JS.Return {| HeyGenService.ok := true;
                       HeyGenService.http_status := status;
                       HeyGenService.json := JS.Return body |}
  | _, _ => False
  end.

(** A transport that answers every avatars request with status 200 and
    the given body, and rejects the other requests. *)
Definition replying (body : Types.AvatarResponse) : HeyGenService.Transport :=
  {| HeyGenService.fetch_avatars := fun _ =>
       JS.Return {| HeyGenService.ok := true;
                    HeyGenService.http_status := 200;
                    HeyGenService.json := JS.Return body |};
     HeyGenService.fetch_groups := fun _ => JS.Throw (JS.Error "Failed to fetch");
     HeyGenService.fetch_details := fun _ => JS.Throw (JS.Error "Failed to fetch") |}.

(** The tests used on the characters of initials. *)
Definition not_lower (c : ascii) : bool := negb (AvatarUtils.is_lower c).
Definition not_space (c : ascii) : bool := negb (Ascii.eqb c " ").

(** The pages that the enabled buttons of the page bar pass to
    [onPageChange]: "first" and "previous" unless on page 1, the visible
    pages, "next" and "last" unless on the last page; every button is
    disabled while loading, and the bar renders nothing when
    [totalPages <= 1]. *)
Definition button_targets (loading : bool) (p : PaginationControls.Props) : list Z :=
  if loading || (PaginationControls.totalPages p <=? 1) then []
  else
    ((if PaginationControls.currentPage p =? 1 then []
      else [1; PaginationControls.currentPage p - 1])
     ++ PaginationControls.getVisiblePages p
     ++ (if PaginationControls.currentPage p =? PaginationControls.totalPages p then []
         else [PaginationControls.currentPage p + 1; PaginationControls.totalPages p]))%list.

(** Everything that can happen to the gallery after it is mounted: a call
    of one of its handlers by a control, or the settling of one of its
    fetches, with whatever outcome. *)
Inductive Event : Type :=
| FiltersChange (newFilters : Types.FilterOptions)
| ClearFilters
| GroupChanged (groupId : option string)
| GroupSelected (groupId : string)
| PageChange (page : Z)
| Retry
| ViewModeChange (mode : AvatarGallery.ViewMode)
| ShowDetails (avatarId : string)
| CloseDetails
| AvatarsSettled (resetPage : bool) (outcome : JS.Completion JS.exn Types.AvatarResponse)
| GroupsSettled (outcome : JS.Completion JS.exn Types.AvatarGroupResponse).

Definition handler_for (e : Event) : AvatarGallery.Handler unit :=
  match e with
  | FiltersChange newFilters => AvatarGallery.handleFiltersChange newFilters
  | ClearFilters => AvatarGallery.handleClearFilters
  | GroupChanged groupId => AvatarGallery.handleGroupChange groupId
  | GroupSelected groupId => AvatarGallery.handleGroupSelect groupId
  | PageChange page => AvatarGallery.handlePageChange page
  | Retry => AvatarGallery.handleRetry
  | ViewModeChange mode => AvatarGallery.handleViewModeChange mode
  | ShowDetails avatarId => AvatarGallery.handleShowAvatarDetails avatarId
  | CloseDetails => AvatarGallery.handleCloseAvatarDetails
  | AvatarsSettled resetPage outcome => AvatarGallery.fetchAvatars_settled resetPage outcome
  | GroupsSettled outcome => AvatarGallery.fetchGroups_settled outcome
  end.

(** The state after the events, taken one turn each, from the state the
    gallery has once mounted. *)
Definition after_events (events : list Event) : AvatarGallery.State :=
  fold_left (fun st e => fst (AvatarGallery.dispatch (handler_for e) st))
    events (fst AvatarGallery.mount).

(** The property kept by every turn of the gallery: a recorded error
    means that the loading flag is off. *)
Definition settled_error (st : AvatarGallery.State) : Prop :=
  AvatarGallery.error st <> None -> AvatarGallery.loading st = false.

(** * Properties *)

(** ** The primitives on samples *)

Example parseInt_samples :
  (JS.parseInt "3", JS.parseInt " -12px", JS.parseInt "0x1f", JS.parseInt "abc",
   JS.parseInt "", JS.parseInt "0", JS.parseInt "+7", JS.parseInt "0x")
  = (Some 3, Some (-12), Some 31, None, None, Some 0, Some 7, None).
Proof. reflexivity. Qed.

Example replace_samples :
  (JS.replace "group_2" "group_" "", JS.replace "xgroup_group_2" "group_" "",
   JS.replace "enterprise" "group_" "")
  = ("2", "xgroup_2", "enterprise").
Proof. reflexivity. Qed.

Example slice_samples :
  (JS.slice [1;2;3;4;5] 1 3, JS.slice [1;2;3;4;5] (-3) (-1),
   JS.slice [1;2;3;4;5] 4 9, JS.slice [1;2;3;4;5] 7 9, JS.slice [1;2;3;4;5] 3 1)
  = ([2;3], [3;4], [5], [], []).
Proof. reflexivity. Qed.

Example toString_samples :
  (JS.toString 20, JS.toString 0, JS.toString (-5), JS.nat_toString 0, JS.nat_toString 53)
  = ("20", "0", "-5", "0", "53").
Proof. reflexivity. Qed.

Example ceil_div_samples :
  (JS.ceil_div 53 20, JS.ceil_div 15 20, JS.ceil_div 0 20, JS.ceil_div 40 20,
   JS.ceil_div 53 0, JS.ceil_div 0 0, JS.ceil_div 53 (-20))
  = (JS.Int 3, JS.Int 1, JS.Int 0, JS.Int 2, JS.Infinity, JS.NaN, JS.Int (-2)).
Proof. reflexivity. Qed.

(** ** Lemmas on the primitives *)

Section SliceFacts.
Context {A : Type}.
Implicit Types (arr : list A) (start stop : Z).

(** A slice that starts at or after the end of the array is empty,
    whatever its end index. *)
Lemma slice_past_end arr start stop :
  Z.of_nat (List.length arr) <= start -> JS.slice arr start stop = [].
Proof.
  intros Hstart. unfold JS.slice, JS.relative_index.
  destruct (start <? 0) eqn:Hneg; [apply Z.ltb_lt in Hneg; lia|].
  rewrite (Z.min_r start) by lia. rewrite Nat2Z.id.
  rewrite skipn_all. now rewrite firstn_nil.
Qed.

Lemma firstn_capped (n : nat) arr :
  firstn (Nat.min n (List.length arr)) arr = firstn n arr.
Proof.
  destruct (Nat.le_ge_cases n (List.length arr)) as [Hle | Hge].
  - now rewrite Nat.min_l.
  - rewrite Nat.min_r by assumption.
    rewrite firstn_all. symmetry. now apply firstn_all2.
Qed.

(** A slice with non-negative bounds [s] and [s + n] holds the elements
    at the indices [s .. s + n - 1] that exist. *)
Lemma slice_window arr (s n : nat) :
  JS.slice arr (Z.of_nat s) (Z.of_nat s + Z.of_nat n) = firstn n (skipn s arr).
Proof.
  unfold JS.slice, JS.relative_index.
  destruct (Z.of_nat s <? 0) eqn:H1; [apply Z.ltb_lt in H1; lia|].
  destruct (Z.of_nat s + Z.of_nat n <? 0) eqn:H2; [apply Z.ltb_lt in H2; lia|].
  clear H1 H2.
  destruct (Nat.le_gt_cases s (List.length arr)) as [Hle | Hgt].
  - rewrite (Z.min_l (Z.of_nat s)) by lia. rewrite Nat2Z.id.
    rewrite <- (firstn_capped n (skipn s arr)). f_equal.
    rewrite length_skipn. lia.
  - rewrite (Z.min_r (Z.of_nat s)) by lia. rewrite Nat2Z.id.
    rewrite skipn_all. rewrite skipn_all2 by lia.
    now rewrite !firstn_nil.
Qed.
End SliceFacts.

Section ParseIntFacts.

Lemma uint_value_of_uint_acc d : forall n : nat,
  Z.of_nat (Nat.of_uint_acc d n) = uint_value d (Z.of_nat n).
Proof.
  induction d; intros n; cbn [Nat.of_uint_acc uint_value];
    try reflexivity;
    rewrite IHd; f_equal; rewrite Nat.tail_mul_spec; lia.
Qed.

Lemma parse_digits_decimal d : forall acc : option Z,
  JS.parse_digits 10 (NilEmpty.string_of_uint d) acc =
  match d with
  | Decimal.Nil => acc
  | _ => Some (uint_value d match acc with Some a => a | None => 0 end)
  end.
Proof.
  induction d; intros acc; [reflexivity | ..];
    cbn [NilEmpty.string_of_uint JS.parse_digits uint_value];
    match goal with
    | |- context [JS.digit_value ?c] =>
        let v := eval vm_compute in (JS.digit_value c) in
        change (JS.digit_value c) with v
    end;
    cbv iota; rewrite IHd; destruct d; reflexivity.
Qed.

Lemma parseInt_decimal d :
  d <> Decimal.Nil ->
  JS.parseInt (NilEmpty.string_of_uint d) = Some (uint_value d 0).
Proof.
  intros Hd.
  assert (Hdigits : JS.parse_digits 10 (NilEmpty.string_of_uint d) None
                    = Some (uint_value d 0)).
  { rewrite parse_digits_decimal. destruct d; congruence || reflexivity. }
  destruct d as [|d|d|d|d|d|d|d|d|d|d]; [congruence | ..].
  1: destruct d.
  all: unfold JS.parseInt; cbn [NilEmpty.string_of_uint JS.trimStart] in *.
  all: match goal with
    | |- context [JS.isStrWhiteSpaceChar ?c] =>
        let v := eval vm_compute in (JS.isStrWhiteSpaceChar c) in
        change (JS.isStrWhiteSpaceChar c) with v
    end; cbv iota.
  all: rewrite Hdigits; cbn [option_map]; f_equal; lia.
Qed.

Lemma to_uint_nonnil (n : nat) : Nat.to_uint n <> Decimal.Nil.
Proof.
  intros Hnil. pose proof (Unsigned.of_to n) as Hn.
  rewrite Hnil in Hn. cbn in Hn. subst n. discriminate Hnil.
Qed.

(** [parseInt] reads back the decimal notation of a natural number. *)
Lemma parseInt_nat_toString (n : nat) :
  JS.parseInt (JS.nat_toString n) = Some (Z.of_nat n).
Proof.
  unfold JS.nat_toString.
  rewrite parseInt_decimal by apply to_uint_nonnil.
  f_equal. change 0 with (Z.of_nat 0).
  rewrite <- uint_value_of_uint_acc.
  f_equal. apply Unsigned.of_to.
Qed.

(** Removing ["group_"] from an identifier that starts with it leaves
    what follows. *)
Lemma replace_group_prefix (rest : string) :
  JS.replace ("group_" ++ rest) "group_" "" = rest.
Proof. destruct rest; reflexivity. Qed.

End ParseIntFacts.

(** ** The catalog client *)

Section CatalogClient.
Import JS Types HeyGenService.

(** A failed transport makes the [try] block throw. *)
Lemma request_json_throws {A : Type} (fetch : Fetch A) (req : Request) :
  transport_failed (fetch req) -> exists e, request_json fetch req = Throw e.
Proof.
  unfold transport_failed, request_json.
  destruct (fetch req) as [response | e]; cbn [bind].
  - intros [Hok | [e He]].
    + rewrite Hok. cbn [negb]. eauto.
    + destruct (ok response); cbn [negb]; [rewrite He; cbn [bind]|]; eauto.
  - eauto.
Qed.

(** The step shared by the proofs about failed calls: the [try] block
    throws, so the [catch] handler supplies the result. *)
Ltac caught Hfail :=
  let e := fresh "e" in
  let He := fresh "He" in
  apply request_json_throws in Hfail as [e He];
  unfold fetchAvatars, fetchAvatarGroups, fetchAvatarDetails;
  rewrite He; cbn [try_catch bind].

(** Whatever the transport does, an operation returns and does not throw. *)
Lemma call_returns (t : Transport) (op : Operation) :
  exists r, call t op = Return r.
Proof.
  destruct op as [params groupId | includePublic | avatarId]; cbn [call];
    unfold fetchAvatars, fetchAvatarGroups, fetchAvatarDetails;
    match goal with
    | |- context [request_json ?f ?r] => destruct (request_json f r)
    end; cbn [try_catch bind]; eauto.
Qed.

(** C1. When the transport fails on the request of a client operation
    (the request is rejected, the status is not a success, or reading
    the body throws), the operation does not throw: it returns the
    substitute result, the mock page, the mock group list or the mock
    detail record. *)
Theorem transport_failure_is_absorbed (t : Transport) (op : Operation) :
  fails_on t op -> call t op = Return (fallback op).
Proof.
  destruct op as [params groupId | includePublic | avatarId];
    cbn [fails_on call fallback]; intros Hfail.
  - caught Hfail. reflexivity.
  - caught Hfail. reflexivity.
  - caught Hfail. reflexivity.
Qed.

Lemma transport_failure_is_absorbed_witness :
  let op := FetchAvatars {| page := 2; page_size := 20 |} (Some "group_1") in
  fails_on (answering 503) op /\
  call (answering 503) op = Return (fallback op).
Proof.
  intros op.
  assert (Hfail : fails_on (answering 503) op) by (left; reflexivity).
  split; [exact Hfail | exact (transport_failure_is_absorbed _ _ Hfail)].
Defined.

(** C5. Two calls of the fallback path with the same arguments give the
    same result: the substitute results are functions of the arguments
    alone, and two failed calls of an operation return the same value
    however their transports failed. *)
Theorem fallback_is_deterministic (t1 t2 : Transport) (op1 op2 : Operation) :
  op1 = op2 -> fails_on t1 op1 -> fails_on t2 op2 ->
  fallback op1 = fallback op2 /\ call t1 op1 = call t2 op2.
Proof.
  intros Heq H1 H2. subst op2. split; [reflexivity|].
  destruct op1 as [params groupId | includePublic | avatarId];
    cbn [fails_on call] in *; caught H1; caught H2; reflexivity.
Qed.

Lemma fallback_is_deterministic_witness :
  let op := FetchAvatarDetails "Abigail_expressive_2024112501" in
  fails_on offline op /\ fails_on (answering 500) op /\
  fallback op = fallback op /\ call offline op = call (answering 500) op.
Proof.
  intros op.
  assert (H1 : fails_on offline op) by exact I.
  assert (H2 : fails_on (answering 500) op) by (left; reflexivity).
  split; [exact H1 | split; [exact H2|]].
  exact (fallback_is_deterministic offline (answering 500) op op eq_refl H1 H2).
Defined.

(** The quotient computed by [Math.ceil] for a positive page size. *)
Lemma ceil_div_positive (a b : Z) :
  0 <= a -> 0 < b ->
  exists n, ceil_div a b = Int n /\ (n - 1) * b < a <= n * b.
Proof.
  intros Ha Hb. unfold ceil_div.
  destruct (b =? 0) eqn:Hz; [apply Z.eqb_eq in Hz; lia|].
  exists (- (- a / b)). split; [reflexivity|].
  pose proof (Z.div_mod (- a) b ltac:(lia)) as Hdm.
  pose proof (Z.mod_pos_bound (- a) b Hb) as Hmod.
  nia.
Qed.

(** C2, as the code has it.  For a positive page size the fallback page
    reports [total_pages = ceil(total / page_size)]; there is no floor
    of 1: the value is at least 1 exactly when the narrowed pool is not
    empty, and 0 when it is. *)
Theorem fallback_total_pages (params : PaginationParams) (groupId : option string) :
  0 < page_size params ->
  let r := data (getMockAvatarData params groupId) in
  exists n, total_pages r = Int n
            /\ (n - 1) * page_size params < total r <= n * page_size params
            /\ (1 <= n <-> 0 < total r).
Proof.
  intros Hps r. subst r. cbn [getMockAvatarData data total_pages total].
  set (len := Z.of_nat (List.length (filteredAvatars groupId))).
  assert (Hlen : 0 <= len) by (subst len; lia).
  destruct (ceil_div_positive len (page_size params) Hlen Hps) as [n [Hn Hb]].
  exists n. split; [exact Hn | split; [exact Hb | nia]].
Qed.

Lemma fallback_total_pages_witness :
  let params := {| page := 1; page_size := 20 |} in
  0 < page_size params /\
  exists n, total_pages (data (getMockAvatarData params None)) = Int n
            /\ (n - 1) * page_size params
               < total (data (getMockAvatarData params None)) <= n * page_size params
            /\ (1 <= n <-> 0 < total (data (getMockAvatarData params None))).
Proof.
  intros params.
  assert (Hps : 0 < page_size params) by reflexivity.
  split; [exact Hps | exact (fallback_total_pages params None Hps)].
Defined.

(** C2 as stated fails: group 5 has an empty window, and the page
    reported for it has [total = 0] and [total_pages = 0], below the
    floor of 1. *)
Lemma total_pages_floor_counterexample :
  let params := {| page := 1; page_size := 20 |} in
  let r := data (getMockAvatarData params (Some "group_5")) in
  1 <= page params /\ 0 < page_size params /\
  total r = 0 /\ total_pages r = Int 0 /\
  ~ (exists n, total_pages r = Int n /\ 1 <= n).
Proof.
  repeat split; try reflexivity.
  intros [n [Hn Hle]]. vm_compute in Hn. injection Hn as Hn. lia.
Qed.

(** C10. A page that starts at or after the end of the narrowed pool is
    answered without failing: the page is empty and its count is 0, while
    [total] and [total_pages] are those of the whole narrowed pool and
    [page] repeats the requested page, also beyond [total_pages]. *)
Theorem fallback_page_past_end (params : PaginationParams) (groupId : option string) :
  Z.of_nat (List.length (filteredAvatars groupId))
    <= (page params - 1) * page_size params ->
  let r := getMockAvatarData params groupId in
  error r = null /\
  avatars (data r) = [] /\
  count (data r) = 0 /\
  total (data r) = Z.of_nat (List.length (filteredAvatars groupId)) /\
  total_pages (data r)
    = ceil_div (Z.of_nat (List.length (filteredAvatars groupId))) (page_size params) /\
  data_page (data r) = page params.
Proof.
  intros Hpast r. subst r.
  cbn [getMockAvatarData error data avatars count total total_pages data_page].
  rewrite (slice_past_end _ _ _ Hpast).
  repeat split; reflexivity.
Qed.

Lemma fallback_page_past_end_witness :
  let params := {| page := 5; page_size := 20 |} in
  let r := getMockAvatarData params None in
  Z.of_nat (List.length (filteredAvatars None))
    <= (page params - 1) * page_size params /\
  (avatars (data r) = [] /\ count (data r) = 0 /\ total (data r) = 53 /\
   total_pages (data r) = Int 3 /\ data_page (data r) = 5).
Proof.
  intros params r.
  assert (Hpast : Z.of_nat (List.length (filteredAvatars None))
                  <= (page params - 1) * page_size params)
    by (vm_compute; discriminate).
  split; [exact Hpast|].
  destruct (fallback_page_past_end params None Hpast) as (_ & Ha & Hc & Ht & Htp & Hp).
  repeat split; assumption.
Defined.

(** The falsy identifiers and ['all'] leave the pool as it is. *)
Lemma no_group_full_pool :
  filteredAvatars None = allMockAvatars /\
  filteredAvatars (Some "") = allMockAvatars /\
  filteredAvatars (Some "all") = allMockAvatars.
Proof. repeat split. Qed.

(** The window of a non-empty identifier other than ['all']. *)
Lemma group_window_of (g : string) :
  g <> "" -> g <> "all" ->
  filteredAvatars (Some g) =
  let groupIndex := or_default (parseInt (replace g "group_" "")) 1 in
  slice allMockAvatars ((groupIndex - 1) * 15) ((groupIndex - 1) * 15 + 15).
Proof.
  intros Hne Hall. unfold filteredAvatars, truthy_string.
  destruct (String.eqb_spec g ""); [contradiction|].
  destruct (String.eqb_spec g "all"); [contradiction|].
  reflexivity.
Qed.

(** C9, as the code has it.  For a non-empty identifier other than
    ['all'], from which the first ["group_"] has been removed: when what
    is left does not start with a number, or starts with zero, the pool is
    narrowed to its elements at indices 0 to 14; when it starts with a
    number [k >= 1], and so for ["group_k"], the pool is narrowed to its
    elements at the indices [(k-1)*15 .. (k-1)*15+14] that exist. *)
Theorem fallback_group_window :
  (forall g : string,
      g <> "" -> g <> "all" ->
      parseInt (replace g "group_" "") = None
      \/ parseInt (replace g "group_" "") = Some 0 ->
      filteredAvatars (Some g) = firstn 15 allMockAvatars) /\
  (forall (g : string) (k : nat),
      g <> "" -> g <> "all" ->
      parseInt (replace g "group_" "") = Some (Z.of_nat k) -> (1 <= k)%nat ->
      filteredAvatars (Some g) = firstn 15 (skipn ((k - 1) * 15) allMockAvatars)) /\
  (forall k : nat,
      (1 <= k)%nat ->
      filteredAvatars (Some ("group_" ++ nat_toString k))
      = firstn 15 (skipn ((k - 1) * 15) allMockAvatars)).
Proof.
  assert (Hwindow : forall (g : string) (k : nat),
      g <> "" -> g <> "all" ->
      parseInt (replace g "group_" "") = Some (Z.of_nat k) -> (1 <= k)%nat ->
      filteredAvatars (Some g) = firstn 15 (skipn ((k - 1) * 15) allMockAvatars)).
  { intros g k Hne Hall Hparse Hk.
    rewrite (group_window_of g Hne Hall), Hparse. cbv zeta. unfold or_default.
    destruct (Z.of_nat k =? 0) eqn:Hz; [apply Z.eqb_eq in Hz; lia|].
    replace ((Z.of_nat k - 1) * 15) with (Z.of_nat ((k - 1) * 15)) by lia.
    exact (slice_window allMockAvatars ((k - 1) * 15) 15). }
  split; [|split].
  - intros g Hne Hall Hparse.
    rewrite (group_window_of g Hne Hall). cbv zeta.
    replace (or_default (parseInt (replace g "group_" "")) 1) with 1
      by (destruct Hparse as [-> | ->]; reflexivity).
    exact (slice_window allMockAvatars 0 15).
  - exact Hwindow.
  - intros k Hk. apply Hwindow; try discriminate; [|exact Hk].
    rewrite replace_group_prefix. apply parseInt_nat_toString.
Qed.

Lemma fallback_group_window_witness :
  ("enterprise" <> "" /\ "enterprise" <> "all" /\
   parseInt (replace "enterprise" "group_" "") = None /\
   filteredAvatars (Some "enterprise") = firstn 15 allMockAvatars) /\
  ((1 <= 3)%nat /\
   filteredAvatars (Some "group_3") = firstn 15 (skipn 30 allMockAvatars)).
Proof.
  destruct fallback_group_window as (Hdefault & _ & Hk).
  assert (H1 : "enterprise" <> "") by discriminate.
  assert (H2 : "enterprise" <> "all") by discriminate.
  assert (H3 : parseInt (replace "enterprise" "group_" "") = None) by reflexivity.
  assert (H4 : (1 <= 3)%nat) by (repeat constructor).
  exact (conj (conj H1 (conj H2 (conj H3 (Hdefault "enterprise" H1 H2 (or_introl H3)))))
              (conj H4 (Hk 3%nat H4))).
Defined.

(** C9 as stated fails: the empty string is a defined identifier other
    than ['all'] that does not parse to a number, and for it the pool is
    not narrowed. *)
Lemma defined_group_counterexample :
  "" <> "all" /\
  parseInt (replace "" "group_" "") = None /\
  filteredAvatars (Some "") = allMockAvatars /\
  filteredAvatars (Some "") <> firstn 15 allMockAvatars.
Proof.
  split; [discriminate|]. split; [reflexivity|]. split; [reflexivity|].
  intros H. apply (f_equal (@List.length _)) in H. vm_compute in H. discriminate H.
Qed.

End CatalogClient.

(** ** The orchestrator *)

Section Orchestrator.
Import JS Types AvatarGallery.
Local Open Scope handler_scope.

Lemma same_group_true_iff (a b : option string) :
  same_group a b = true <-> a = b.
Proof.
  destruct a as [x|], b as [y|]; cbn [same_group];
    try (split; congruence).
  rewrite String.eqb_eq. split; congruence.
Qed.

Lemma same_group_refl (a : option string) : same_group a a = true.
Proof. now apply same_group_true_iff. Qed.

(** A turn that leaves [filters.selectedGroup] as it was runs no effect. *)
Lemma dispatch_same_group (h : Handler unit) (st next : State) (cmds : list Command) :
  h st st = (tt, next, cmds) ->
  selectedGroup (filters next) = selectedGroup (filters st) ->
  dispatch h st = (next, cmds).
Proof.
  intros Hrun Hsame. unfold dispatch. rewrite Hrun, Hsame.
  now rewrite same_group_refl.
Qed.

(** A turn that changes [filters.selectedGroup] runs the effect, which
    refetches page 1 unless the groups are loading. *)
Lemma dispatch_new_group (h : Handler unit) (st next : State) (cmds : list Command) :
  h st st = (tt, next, cmds) ->
  selectedGroup (filters next) <> selectedGroup (filters st) ->
  dispatch h st =
  if groupsLoading next then (next, cmds)
  else (setError None (setLoading true next),
        (cmds ++ [CallFetchAvatars {| page := 1; page_size := pageSize next |}
                    (selectedGroup (filters next)) true])%list).
Proof.
  intros Hrun Hnew. unfold dispatch. rewrite Hrun.
  destruct (same_group _ _) eqn:Hsame.
  - apply same_group_true_iff in Hsame. congruence.
  - unfold effect_selectedGroup, fetchAvatars, seq_bind, read, set, issue, skip, ret.
    destruct (groupsLoading next); cbn [negb]; [now rewrite app_nil_r | reflexivity].
Qed.

Lemma int_leb_in_range (n : Z) (m : number) :
  (n >=? 1) && int_leb n m = true <-> page_in_range n m.
Proof.
  unfold page_in_range. rewrite andb_true_iff, Z.geb_le.
  destruct m; cbn [int_leb]; rewrite ?Z.leb_le; intuition (lia || congruence).
Qed.

(** The test of the [filter] callback agrees with the specification's. *)
Lemma filteredAvatars_eq_filter (avs : list Avatar) (f : FilterOptions) :
  filteredAvatars avs f = filter (keeps_spec (gender_filter f) (premiumOnly f)) avs.
Proof.
  unfold filteredAvatars. apply filter_ext. intros a. unfold keeps_spec.
  destruct (gender_filter f) as [|g]; [|destruct (Gender_eqb (gender a) g)];
    destruct (premiumOnly f), (premium a); reflexivity.
Qed.

Lemma Gender_eqb_eq (a b : Gender) : Gender_eqb a b = true <-> a = b.
Proof. destruct a, b; cbn; split; congruence. Qed.

(** C3. The visible avatars are a function of the avatar list, the gender
    selector and the premium flag alone, the list filtered by the
    specification's test: an avatar is visible iff it is in the list,
    the selector is ['all'] or its gender, and the premium flag is off or
    the avatar is premium.  The selected group plays no part, and the
    computation issues no command: it is a function on lists. *)
Theorem visible_avatars_are_filtered (avs : list Avatar) (f : FilterOptions) :
  filteredAvatars avs f = filter (keeps_spec (gender_filter f) (premiumOnly f)) avs
  /\ (forall a : Avatar,
        In a (filteredAvatars avs f) <->
        In a avs
        /\ (gender_filter f = all \/ gender_filter f = only (gender a))
        /\ (premiumOnly f = false \/ premium a = true))
  /\ (forall g : option string,
        filteredAvatars avs (with_selectedGroup g f) = filteredAvatars avs f).
Proof.
  split; [apply filteredAvatars_eq_filter | split].
  - intros a. rewrite filteredAvatars_eq_filter, filter_In.
    unfold keeps_spec. rewrite andb_true_iff, orb_true_iff, negb_true_iff.
    destruct (gender_filter f) as [|g].
    + intuition congruence.
    + rewrite Gender_eqb_eq. intuition congruence.
  - intros g. rewrite !filteredAvatars_eq_filter. reflexivity.
Qed.

(** What [handlePageChange] does in one turn. *)
Lemma handlePageChange_run (n : Z) (st : State) :
  handlePageChange n st st =
  if negb (n =? currentPage st) && (n >=? 1) && int_leb n (totalPages st)
  then (tt, setError None (setLoading true st),
        [CallFetchAvatars {| page := n; page_size := pageSize st |}
           (selectedGroup (filters st)) false;
         ScrollToTop])
  else (tt, st, []).
Proof.
  unfold handlePageChange, fetchAvatars, seq_bind, read, set, issue, skip, ret.
  destruct (negb (n =? currentPage st) && (n >=? 1) && int_leb n (totalPages st));
    reflexivity.
Qed.

(** C6. [handlePageChange(n)] fetches page [n] with the current group
    filter when [1 <= n <= totalPages] and [n] is not the current page,
    and only then: for any other [n] the state is unchanged (so no error
    is recorded) and nothing is issued. *)
Theorem page_change_is_guarded (n : Z) (st : State) :
  let r := dispatch (handlePageChange n) st in
  (page_in_range n (totalPages st) /\ n <> currentPage st ->
   avatar_fetches (snd r)
   = [({| page := n; page_size := pageSize st |}, selectedGroup (filters st))])
  /\ (~ (page_in_range n (totalPages st) /\ n <> currentPage st) ->
      r = (st, [])).
Proof.
  intros r. subst r.
  pose proof (handlePageChange_run n st) as Hrun.
  pose proof (int_leb_in_range n (totalPages st)) as Hrange.
  destruct (negb (n =? currentPage st) && (n >=? 1) && int_leb n (totalPages st))
    eqn:Hguard.
  - rewrite (dispatch_same_group _ _ _ _ Hrun eq_refl).
    split; [reflexivity|]. intros Hnot. exfalso. apply Hnot.
    rewrite <- andb_assoc in Hguard. apply andb_true_iff in Hguard as [Hne Hin].
    apply negb_true_iff, Z.eqb_neq in Hne. split; [now apply Hrange | exact Hne].
  - rewrite (dispatch_same_group _ _ _ _ Hrun eq_refl).
    split; [|reflexivity]. intros [Hin Hne]. exfalso.
    apply Hrange in Hin. apply Z.eqb_neq in Hne.
    rewrite <- andb_assoc, Hin, Hne in Hguard. discriminate Hguard.
Qed.

Lemma page_change_is_guarded_witness :
  let st := Scenario.first_page in
  (page_in_range 3 (totalPages st) /\ 3 <> currentPage st) /\
  avatar_fetches (snd (dispatch (handlePageChange 3) st))
  = [({| page := 3; page_size := 20 |}, None)] /\
  ~ (page_in_range 5 (totalPages st) /\ 5 <> currentPage st) /\
  dispatch (handlePageChange 5) st = (st, []).
Proof.
  intros st.
  assert (Hin : page_in_range 3 (totalPages st) /\ 3 <> currentPage st)
    by (split; [vm_compute; split; discriminate | discriminate]).
  assert (Hout : ~ (page_in_range 5 (totalPages st) /\ 5 <> currentPage st))
    by (intros [[_ Hle] _]; vm_compute in Hle; apply Hle; reflexivity).
  exact (conj Hin
          (conj (proj1 (page_change_is_guarded 3 st) Hin)
             (conj Hout (proj2 (page_change_is_guarded 5 st) Hout)))).
Defined.

(** C8. A filter change that leaves [selectedGroup] as it is issues
    nothing, so no fetch: the avatars, the page state and the loading
    flags are as before, the filters are the new ones, and the visible
    avatars are the same avatars filtered anew. *)
Theorem gender_premium_change_is_local (newFilters : FilterOptions) (st : State) :
  selectedGroup newFilters = selectedGroup (filters st) ->
  let r := dispatch (handleFiltersChange newFilters) st in
  snd r = [] /\
  avatars (fst r) = avatars st /\
  currentPage (fst r) = currentPage st /\
  totalPages (fst r) = totalPages st /\
  totalItems (fst r) = totalItems st /\
  loading (fst r) = loading st /\
  groupsLoading (fst r) = groupsLoading st /\
  filters (fst r) = newFilters /\
  filteredAvatars (avatars (fst r)) (filters (fst r))
  = filteredAvatars (avatars st) newFilters.
Proof.
  intros Hsame r. subst r.
  rewrite (dispatch_same_group (handleFiltersChange newFilters) st
             (setFilters newFilters st) [] eq_refl Hsame).
  repeat split.
Qed.

Lemma gender_premium_change_is_local_witness :
  let st := Scenario.first_page in
  let newFilters :=
    {| gender_filter := only female; premiumOnly := true; selectedGroup := None |} in
  selectedGroup newFilters = selectedGroup (filters st) /\
  snd (dispatch (handleFiltersChange newFilters) st) = [] /\
  avatars (fst (dispatch (handleFiltersChange newFilters) st)) = avatars st.
Proof.
  intros st newFilters.
  assert (Hsame : selectedGroup newFilters = selectedGroup (filters st))
    by reflexivity.
  destruct (gender_premium_change_is_local newFilters st Hsame) as (Hc & Ha & _).
  exact (conj Hsame (conj Hc Ha)).
Defined.

(** What the three group-changing handlers do in one turn, before the
    effect. *)
Lemma handler_of_run (a : GroupAction) (st : State) :
  exists next,
    handler_of a st st = (tt, next, [])
    /\ selectedGroup (filters next) = requested_group a
    /\ currentPage next = currentPage st
    /\ groupsLoading next = groupsLoading st
    /\ pageSize next = pageSize st.
Proof.
  destruct a as [newFilters | groupId | groupId]; eexists;
    (split; [reflexivity | repeat split]).
Qed.

(** A settled avatars fetch that reports no error and was issued with
    [resetPage] puts the gallery on page 1. *)
Lemma reset_on_success (response : AvatarResponse) (st : State) :
  truthy (Types.error response) = false ->
  currentPage (fst (dispatch (fetchAvatars_settled true (Return response)) st)) = 1.
Proof.
  intros Hok. unfold dispatch, fetchAvatars_settled. cbn [bind]. rewrite Hok.
  unfold seq_bind, set, issue. cbn. rewrite same_group_refl. reflexivity.
Qed.

(** C4, as the code has it.  A change of [selectedGroup] to a different
    value leaves [currentPage] as it is for the time being.  When the
    groups are not loading it issues exactly one command, an avatars
    fetch for page 1 scoped to the new group, and the gallery is on page
    1 once that fetch settles without an error.  When the groups are
    loading it issues nothing. *)
Theorem group_change_refetches (a : GroupAction) (st : State) :
  requested_group a <> selectedGroup (filters st) ->
  let r := dispatch (handler_of a) st in
  selectedGroup (filters (fst r)) = requested_group a /\
  currentPage (fst r) = currentPage st /\
  (groupsLoading st = false ->
   snd r = [CallFetchAvatars {| page := 1; page_size := pageSize st |}
              (requested_group a) true]) /\
  (groupsLoading st = true -> snd r = []) /\
  (forall (response : AvatarResponse) (st' : State),
      truthy (Types.error response) = false ->
      currentPage (fst (dispatch (fetchAvatars_settled true (Return response)) st')) = 1).
Proof.
  intros Hnew r. subst r.
  destruct (handler_of_run a st) as (next & Hrun & Hgroup & Hpage & Hloading & Hsize).
  rewrite (dispatch_new_group _ _ _ _ Hrun) by (rewrite Hgroup; exact Hnew).
  rewrite Hloading, Hgroup, Hsize.
  destruct (groupsLoading st); cbn [fst snd app];
    (repeat split; try assumption; try discriminate; try reflexivity);
    intros; now apply reset_on_success.
Qed.

Lemma group_change_refetches_witness :
  let st := Scenario.third_page in
  let a := GroupSelect "group_2" in
  requested_group a <> selectedGroup (filters st) /\
  groupsLoading st = false /\
  snd (dispatch (handler_of a) st)
  = [CallFetchAvatars {| page := 1; page_size := 20 |} (Some "group_2") true].
Proof.
  intros st a.
  assert (Hnew : requested_group a <> selectedGroup (filters st)) by discriminate.
  assert (Hloaded : groupsLoading st = false) by reflexivity.
  destruct (group_change_refetches a st Hnew) as (_ & _ & Hfetch & _).
  exact (conj Hnew (conj Hloaded (Hfetch Hloaded))).
Defined.

(** C4 as stated fails.  While the groups are loading, a change of the
    selected group issues no fetch and the gallery stays on page 3; and
    when the fetch issued for a group change settles with an error, the
    gallery stays on page 3 as well. *)
Lemma group_change_counterexample :
  (let st := Scenario.third_page_groups_pending in
   let r := dispatch (handleGroupChange (Some "group_2")) st in
   selectedGroup (filters st) = None /\
   selectedGroup (filters (fst r)) = Some "group_2" /\
   avatar_fetches (snd r) = [] /\
   currentPage (fst r) = 3) /\
  (let st := Scenario.third_page in
   let r := dispatch (handleGroupChange (Some "group_2")) st in
   let r' := dispatch (fetchAvatars_settled true (Return Scenario.failed_avatars)) (fst r) in
   selectedGroup (filters st) = None /\
   selectedGroup (filters (fst r')) = Some "group_2" /\
   avatar_fetches (snd r) = [({| page := 1; page_size := 20 |}, Some "group_2")] /\
   currentPage (fst r') = 3).
Proof. repeat split. Qed.

(** C7, as the code has it.  An avatars fetch that settles with a truthy
    [error] field records the failure message in [error], leaves the
    avatars and the page state as they were, ends the loading and issues
    no fetch.  A groups fetch that settles with a truthy [error] field
    replaces the groups by the empty list and records no error; it ends
    the loading and issues no fetch. *)
Theorem logical_failure_is_terminal :
  (forall (st : State) (resetPage : bool) (response : AvatarResponse),
      truthy (Types.error response) = true ->
      let r := dispatch (fetchAvatars_settled resetPage (Return response)) st in
      error (fst r) = Some "Failed to fetch avatars from API" /\
      avatars (fst r) = avatars st /\
      currentPage (fst r) = currentPage st /\
      totalPages (fst r) = totalPages st /\
      totalItems (fst r) = totalItems st /\
      loading (fst r) = false /\
      filter is_fetch (snd r) = []) /\
  (forall (st : State) (response : AvatarGroupResponse),
      truthy (groups_error response) = true ->
      let r := dispatch (fetchGroups_settled (Return response)) st in
      groups (fst r) = [] /\
      error (fst r) = error st /\
      groupsLoading (fst r) = false /\
      filter is_fetch (snd r) = []).
Proof.
  split.
  - intros st resetPage response Hfailed r. subst r.
    unfold dispatch, fetchAvatars_settled. cbn [bind]. rewrite Hfailed.
    unfold seq_bind, set, issue. cbn. rewrite same_group_refl.
    repeat split.
  - intros st response Hfailed r. subst r.
    unfold dispatch, fetchGroups_settled. rewrite Hfailed.
    unfold seq_bind, set, issue. cbn. rewrite same_group_refl.
    repeat split.
Qed.

Lemma logical_failure_is_terminal_witness :
  let r := dispatch (fetchAvatars_settled false (Return Scenario.failed_avatars))
             Scenario.third_page in
  let r' := dispatch (fetchGroups_settled (Return Scenario.failed_groups))
              Scenario.after_mount in
  (truthy (Types.error Scenario.failed_avatars) = true /\
   error (fst r) = Some "Failed to fetch avatars from API" /\
   avatars (fst r) = avatars Scenario.third_page /\
   currentPage (fst r) = 3) /\
  (truthy (groups_error Scenario.failed_groups) = true /\
   groups (fst r') = [] /\ error (fst r') = None).
Proof.
  intros r r'.
  destruct logical_failure_is_terminal as [Havatars Hgroups].
  assert (H1 : truthy (Types.error Scenario.failed_avatars) = true) by reflexivity.
  assert (H2 : truthy (groups_error Scenario.failed_groups) = true) by reflexivity.
  destruct (Havatars Scenario.third_page false Scenario.failed_avatars H1)
    as (He & Ha & Hp & _).
  destruct (Hgroups Scenario.after_mount Scenario.failed_groups H2)
    as (Hg & He' & _).
  exact (conj (conj H1 (conj He (conj Ha Hp))) (conj H2 (conj Hg He'))).
Defined.

(** C7 as stated fails for the groups.  A groups fetch that settles with
    an error at start-up records nothing in [error]; and when it settles
    with an error after a retry, the groups held before are replaced by
    the empty list. *)
Lemma groups_failure_counterexample :
  truthy (groups_error Scenario.failed_groups) = true /\
  (let r := dispatch (fetchGroups_settled (Return Scenario.failed_groups))
              Scenario.after_mount in
   error (fst r) = None) /\
  (let st := Scenario.groups_retry in
   let r := dispatch (fetchGroups_settled (Return Scenario.failed_groups)) st in
   groups st = HeyGenService.mockGroups /\
   groups (fst r) = [] /\
   groups (fst r) <> groups st /\
   error (fst r) = None).
Proof.
  split; [reflexivity|]. split; [reflexivity|].
  split; [reflexivity|]. split; [reflexivity|]. split; [discriminate | reflexivity].
Qed.

End Orchestrator.
(** ** The formatting helpers *)

Section FormattingHelpers.
Import JS AvatarUtils.

Lemma upper_not_lower (c : ascii) : is_upper c = true -> is_lower c = false.
Proof.
  unfold is_upper, is_lower. cbv zeta.
  rewrite andb_true_iff, andb_false_iff, !Nat.leb_le, !Nat.leb_gt. lia.
Qed.

Lemma space_not_upper : is_upper " " = false.
Proof. reflexivity. Qed.

Lemma formatAvatarName_step (c1 c2 : ascii) (rest : string) :
  formatAvatarName (String c1 (String c2 rest)) =
  if is_lower c1 && is_upper c2
  then String c1 (String " " (String c2 (formatAvatarName rest)))
  else String c1 (formatAvatarName (String c2 rest)).
Proof. reflexivity. Qed.

Lemma has_camel_step (c1 c2 : ascii) (rest : string) :
  has_camel (String c1 (String c2 rest)) =
  (is_lower c1 && is_upper c2) || has_camel (String c2 rest).
Proof. reflexivity. Qed.

(** [formatAvatarName] keeps the first character where it is. *)
Lemma formatAvatarName_head (c : ascii) (s : string) :
  exists r, formatAvatarName (String c s) = String c r.
Proof.
  destruct s as [|c2 rest]; cbn [formatAvatarName]; [eauto|].
  destruct (is_lower c && is_upper c2); eauto.
Qed.

Lemma formatAvatarName_no_camel (n : nat) : forall s : string,
  (String.length s <= n)%nat -> has_camel (formatAvatarName s) = false.
Proof.
  induction n as [|n IH]; intros s Hlen.
  - destruct s; [reflexivity | cbn in Hlen; lia].
  - destruct s as [|c1 [|c2 rest]]; try reflexivity.
    rewrite formatAvatarName_step.
    destruct (is_lower c1 && is_upper c2) eqn:Hmatch.
    + apply andb_true_iff in Hmatch as [_ Hup].
      assert (Hrest : has_camel (formatAvatarName rest) = false)
        by (apply IH; cbn in Hlen; lia).
      rewrite !has_camel_step, space_not_upper, andb_false_r.
      change (is_lower " ") with false. cbn [andb orb].
      destruct rest as [|c3 rest'].
      * reflexivity.
      * destruct (formatAvatarName_head c3 rest') as [r Hr].
        rewrite Hr in *. rewrite has_camel_step, (upper_not_lower _ Hup).
        exact Hrest.
    + assert (Htail : has_camel (formatAvatarName (String c2 rest)) = false)
        by (apply IH; cbn in Hlen |- *; lia).
      destruct (formatAvatarName_head c2 rest) as [r Hr].
      rewrite Hr in *. rewrite has_camel_step, Hmatch. exact Htail.
Qed.

Lemma formatAvatarName_fixed (n : nat) : forall s : string,
  (String.length s <= n)%nat -> has_camel s = false -> formatAvatarName s = s.
Proof.
  induction n as [|n IH]; intros s Hlen Hs.
  - destruct s; [reflexivity | cbn in Hlen; lia].
  - destruct s as [|c1 [|c2 rest]]; try reflexivity.
    rewrite has_camel_step in Hs. apply orb_false_iff in Hs as [Hpair Htail].
    rewrite formatAvatarName_step, Hpair. f_equal.
    apply IH; [cbn in Hlen |- *; lia | exact Htail].
Qed.

(** X1. [formatAvatarName] leaves no lowercase letter directly followed
    by an uppercase letter; applying it again changes nothing, and a name
    without such a pair is returned as it is. *)
Theorem formatAvatarName_separates (name : string) :
  has_camel (formatAvatarName name) = false
  /\ formatAvatarName (formatAvatarName name) = formatAvatarName name
  /\ (has_camel name = false -> formatAvatarName name = name).
Proof.
  assert (Hclean : has_camel (formatAvatarName name) = false)
    by (apply (formatAvatarName_no_camel (String.length name)); lia).
  split; [exact Hclean | split].
  - apply (formatAvatarName_fixed (String.length (formatAvatarName name)));
      [lia | exact Hclean].
  - apply (formatAvatarName_fixed (String.length name)); lia.
Qed.

Lemma formatAvatarName_separates_witness :
  has_camel "Abigail Office" = false /\
  formatAvatarName "Abigail Office" = "Abigail Office".
Proof.
  assert (H : has_camel "Abigail Office" = false) by reflexivity.
  exact (conj H (proj2 (proj2 (formatAvatarName_separates "Abigail Office")) H)).
Defined.


Lemma trimStart_starts (s : string) : starts_with_space (trimStart s) = false.
Proof.
  induction s as [|c r IH]; [reflexivity|]. cbn [trimStart].
  destruct (isStrWhiteSpaceChar c) eqn:Hc; [exact IH | cbn; exact Hc].
Qed.

Lemma trimStart_fixed (s : string) :
  starts_with_space s = false -> trimStart s = s.
Proof. destruct s as [|c r]; cbn; [reflexivity | intros ->; reflexivity]. Qed.

Lemma trimEnd_step (c : ascii) (r : string) :
  trimEnd (String c r) =
  match trimEnd r with
  | EmptyString => if isStrWhiteSpaceChar c then EmptyString else String c EmptyString
  | String _ _ as r' => String c r'
  end.
Proof. reflexivity. Qed.

Lemma ends_with_space_step (c : ascii) (r : string) :
  ends_with_space (String c r) =
  match r with
  | EmptyString => isStrWhiteSpaceChar c
  | String _ _ => ends_with_space r
  end.
Proof. destruct r; reflexivity. Qed.

Lemma trimEnd_ends (s : string) : ends_with_space (trimEnd s) = false.
Proof.
  induction s as [|c r IH]; [reflexivity|]. rewrite trimEnd_step.
  destruct (trimEnd r) as [|c' r'] eqn:Hr.
  - destruct (isStrWhiteSpaceChar c) eqn:Hc; [reflexivity | cbn; exact Hc].
  - rewrite ends_with_space_step. exact IH.
Qed.

Lemma trimEnd_fixed (s : string) :
  ends_with_space s = false -> trimEnd s = s.
Proof.
  induction s as [|c r IH]; [reflexivity|].
  rewrite ends_with_space_step, trimEnd_step. destruct r as [|c' r'].
  - intros ->. reflexivity.
  - intros Hr. rewrite (IH Hr). reflexivity.
Qed.

Lemma trimEnd_starts (s : string) :
  starts_with_space s = false -> starts_with_space (trimEnd s) = false.
Proof.
  destruct s as [|c r]; [reflexivity|]. cbn [starts_with_space]. intros Hc.
  rewrite trimEnd_step. destruct (trimEnd r); [rewrite Hc|]; cbn; exact Hc.
Qed.

Lemma length_trimStart (s : string) :
  (String.length (trimStart s) <= String.length s)%nat.
Proof.
  induction s as [|c r IH]; cbn [trimStart]; [lia|].
  destruct (isStrWhiteSpaceChar c); cbn [String.length]; lia.
Qed.

Lemma length_trimEnd (s : string) :
  (String.length (trimEnd s) <= String.length s)%nat.
Proof.
  induction s as [|c r IH]; [cbn; lia|]. rewrite trimEnd_step.
  destruct (trimEnd r); [destruct (isStrWhiteSpaceChar c)|];
    cbn [String.length] in *; lia.
Qed.

Lemma length_trim (s : string) : (String.length (trim s) <= String.length s)%nat.
Proof.
  unfold trim. pose proof (length_trimEnd (trimStart s)).
  pose proof (length_trimStart s). lia.
Qed.

(** X2. [formatGroupTitle] returns a title with no white space at either
    end, and applying it again changes nothing. *)
Theorem formatGroupTitle_trims (title : string) :
  starts_with_space (formatGroupTitle title) = false
  /\ ends_with_space (formatGroupTitle title) = false
  /\ formatGroupTitle (formatGroupTitle title) = formatGroupTitle title.
Proof.
  unfold formatGroupTitle, trim.
  assert (Hstart : starts_with_space (trimEnd (trimStart title)) = false)
    by apply trimEnd_starts, trimStart_starts.
  assert (Hend : ends_with_space (trimEnd (trimStart title)) = false)
    by apply trimEnd_ends.
  split; [exact Hstart | split; [exact Hend|]].
  rewrite (trimStart_fixed _ Hstart). apply trimEnd_fixed, Hend.
Qed.

Lemma length_append (a b : string) :
  String.length (a ++ b) = (String.length a + String.length b)%nat.
Proof. induction a as [|c a IH]; cbn; [reflexivity | now rewrite IH]. Qed.

Lemma length_substring_0 (n : nat) : forall s : string,
  (String.length (String.substring 0 n s) <= n)%nat.
Proof.
  induction n as [|n IH]; intros s; destruct s; cbn; try lia.
  specialize (IH s). lia.
Qed.

(** X3. [truncateDescription] returns a missing or empty description as
    the empty string and a description of at most [maxLength] characters
    as it is.  A longer one is cut to at most [maxLength] characters with
    no white space at the end, and ["..."] is appended: the result can be
    up to [maxLength + 3] characters long, three more than the limit. *)
Theorem truncateDescription_bounds (description : option string) (maxLength : Z) :
  0 <= maxLength ->
  (JS.truthy_string description = false ->
   truncateDescription description maxLength = "")
  /\ (forall d : string,
        description = Some d -> Z.of_nat (String.length d) <= maxLength ->
        truncateDescription description maxLength = d)
  /\ (forall d : string,
        description = Some d -> maxLength < Z.of_nat (String.length d) ->
        exists kept : string,
          truncateDescription description maxLength = kept ++ "..."
          /\ Z.of_nat (String.length kept) <= maxLength
          /\ ends_with_space kept = false)
  /\ Z.of_nat (String.length (truncateDescription description maxLength))
     <= maxLength + 3.
Proof.
  intros Hmax.
  assert (Hcut : forall d : string,
      maxLength < Z.of_nat (String.length d) ->
      truncateDescription (Some d) maxLength
      = trim (String.substring 0 (Z.to_nat maxLength) d) ++ "..."
      /\ Z.of_nat (String.length (trim (String.substring 0 (Z.to_nat maxLength) d)))
         <= maxLength).
  { intros d Hlong. unfold truncateDescription, truthy_string.
    destruct d as [|c r]; [cbn in Hlong; lia|].
    change (String.eqb (String c r) "") with false. cbn [negb].
    destruct (Z.leb_spec (Z.of_nat (String.length (String c r))) maxLength); [lia|].
    split; [reflexivity|].
    pose proof (length_trim (String.substring 0 (Z.to_nat maxLength) (String c r))).
    pose proof (length_substring_0 (Z.to_nat maxLength) (String c r)). lia. }
  assert (Hfit : forall d : string,
      Z.of_nat (String.length d) <= maxLength ->
      truncateDescription (Some d) maxLength = d).
  { intros d Hshort. unfold truncateDescription, truthy_string.
    destruct d as [|c r]; [reflexivity|].
    change (String.eqb (String c r) "") with false. cbn [negb].
    destruct (Z.leb_spec (Z.of_nat (String.length (String c r))) maxLength);
      [reflexivity | lia]. }
  split; [|split; [|split]].
  - destruct description as [d|]; [|reflexivity].
    unfold truncateDescription. intros ->. reflexivity.
  - intros d -> Hshort. now apply Hfit.
  - intros d -> Hlong. destruct (Hcut d Hlong) as [Heq Hlen].
    eexists. split; [exact Heq | split; [exact Hlen|]].
    unfold trim. apply trimEnd_ends.
  - destruct description as [d|]; [|cbn; lia].
    destruct (Z.le_gt_cases (Z.of_nat (String.length d)) maxLength) as [Hshort | Hlong].
    + rewrite (Hfit d Hshort). lia.
    + destruct (Hcut d Hlong) as [-> Hlen]. rewrite length_append. cbn. lia.
Qed.

Lemma truncateDescription_bounds_witness :
  0 <= 3 /\
  truncateDescription (Some "abcd") 3 = "abc..." /\
  Z.of_nat (String.length (truncateDescription (Some "abcd") 3)) <= 3 + 3.
Proof.
  assert (H : 0 <= 3) by discriminate.
  exact (conj H (conj eq_refl
           (proj2 (proj2 (proj2 (truncateDescription_bounds (Some "abcd") 3 H)))))).
Defined.




Lemma upper_char_not_lower (c : ascii) : not_lower (upper_char c) = true.
Proof. destruct c as [[] [] [] [] [] [] [] []]; reflexivity. Qed.

Lemma upper_char_not_space (c : ascii) :
  not_space c = true -> not_space (upper_char c) = true.
Proof. destruct c as [[] [] [] [] [] [] [] []]; intros H; first [reflexivity | exact H]. Qed.

Lemma all_chars_append (test : ascii -> bool) (a b : string) :
  all_chars test (a ++ b) = all_chars test a && all_chars test b.
Proof.
  induction a as [|c a IH]; cbn; [reflexivity|].
  now rewrite IH, andb_assoc.
Qed.

Lemma all_chars_substring_0 (test : ascii -> bool) (n : nat) : forall s : string,
  all_chars test s = true -> all_chars test (String.substring 0 n s) = true.
Proof.
  induction n as [|n IH]; intros s Hs; destruct s as [|c r]; cbn; try reflexivity.
  cbn in Hs. apply andb_true_iff in Hs as [Hc Hr].
  rewrite Hc. cbn. now apply IH.
Qed.

Lemma all_chars_toUpperCase_not_lower (s : string) :
  all_chars not_lower (toUpperCase s) = true.
Proof.
  induction s as [|c r IH]; cbn; [reflexivity|].
  now rewrite upper_char_not_lower, IH.
Qed.

Lemma all_chars_toUpperCase_not_space (s : string) :
  all_chars not_space s = true -> all_chars not_space (toUpperCase s) = true.
Proof.
  induction s as [|c r IH]; cbn; [reflexivity|].
  intros H. apply andb_true_iff in H as [Hc Hr].
  now rewrite (upper_char_not_space c Hc), IH.
Qed.

(** The first characters of the pieces of [split(' ')] are not spaces. *)
Lemma initials_not_space (s : string) :
  all_chars not_space (join (map charAt0 (split_space s))) = true.
Proof.
  induction s as [|c r IH]; [reflexivity|]. cbn [split_space].
  destruct (Ascii.eqb c " ") eqn:Hc.
  - exact IH.
  - destruct (split_space r) as [|w ws]; cbn in *.
    + unfold not_space. now rewrite Hc.
    + unfold not_space at 1. rewrite Hc. cbn.
      destruct w as [|c' w']; cbn in IH; [exact IH|].
      apply andb_true_iff in IH as [_ IH]. exact IH.
Qed.

(** X5. For a name of code units below 128, [getAvatarInitials] returns
    at most two characters, none of them a space or a lowercase letter,
    and a space in front of the name does not change them. *)
Theorem getAvatarInitials_shape (name : string) :
  is_ascii name = true ->
  (String.length (getAvatarInitials name) <= 2)%nat
  /\ all_chars not_space (getAvatarInitials name) = true
  /\ all_chars not_lower (getAvatarInitials name) = true
  /\ getAvatarInitials (String " " name) = getAvatarInitials name.
Proof.
  intros _. unfold getAvatarInitials. split; [apply length_substring_0|].
  split; [|split].
  - apply all_chars_substring_0, all_chars_toUpperCase_not_space, initials_not_space.
  - apply all_chars_substring_0, all_chars_toUpperCase_not_lower.
  - reflexivity.
Qed.

Lemma getAvatarInitials_shape_witness :
  is_ascii " john  smith doe" = true /\
  getAvatarInitials " john  smith doe" = "JS" /\
  (String.length (getAvatarInitials " john  smith doe") <= 2)%nat.
Proof.
  assert (H : is_ascii " john  smith doe" = true) by reflexivity.
  exact (conj H (conj eq_refl (proj1 (getAvatarInitials_shape " john  smith doe" H)))).
Defined.

End FormattingHelpers.

(** ** More on the catalog client *)

Section FallbackPages.
Import JS Types HeyGenService.

Lemma firstn_incl {A : Type} (n : nat) (l : list A) : incl (firstn n l) l.
Proof.
  intros x Hx. rewrite <- (firstn_skipn n l). apply in_or_app. now left.
Qed.

Lemma skipn_incl {A : Type} (n : nat) (l : list A) : incl (skipn n l) l.
Proof.
  intros x Hx. rewrite <- (firstn_skipn n l). apply in_or_app. now right.
Qed.

(** A slice holds elements of the array only. *)
Lemma slice_incl {A : Type} (arr : list A) (start stop : Z) :
  incl (slice arr start stop) arr.
Proof.
  unfold slice. intros x Hx. apply firstn_incl in Hx. now apply skipn_incl in Hx.
Qed.

(** A slice over a window of [n] indices holds at most [n] elements,
    wherever the window lies. *)
Lemma slice_length_le {A : Type} (arr : list A) (start n : Z) :
  0 <= n -> Z.of_nat (List.length (slice arr start (start + n))) <= n.
Proof.
  intros Hn. unfold slice, relative_index. rewrite length_firstn, length_skipn.
  destruct (start <? 0) eqn:H1; destruct (start + n <? 0) eqn:H2;
    rewrite ?Z.ltb_lt, ?Z.ltb_ge in H1, H2; lia.
Qed.

(** The number of elements of a slice whose bounds are not negative. *)
Lemma slice_length {A : Type} (arr : list A) (start stop : Z) :
  0 <= start -> 0 <= stop ->
  Z.of_nat (List.length (slice arr start stop))
  = Z.max 0 (Z.min stop (Z.of_nat (List.length arr)) - start).
Proof.
  intros Hs He. unfold slice, relative_index. rewrite length_firstn, length_skipn.
  destruct (start <? 0) eqn:H1; destruct (stop <? 0) eqn:H2;
    rewrite ?Z.ltb_lt, ?Z.ltb_ge in H1, H2; lia.
Qed.

(** Cutting a list into [n] consecutive chunks of [size] elements loses
    nothing when [n * size] reaches the end of the list. *)
Lemma chunks_concat {A : Type} (size : nat) : forall (n : nat) (l : list A),
  (List.length l <= n * size)%nat ->
  List.concat (map (fun i => firstn size (skipn (i * size) l)) (seq 0 n)) = l.
Proof.
  induction n as [|n IH]; intros l Hlen.
  - destruct l; [reflexivity | cbn in Hlen; lia].
  - cbn [seq map List.concat]. rewrite <- seq_shift, map_map.
    rewrite (map_ext _ (fun i => firstn size (skipn (i * size) (skipn size l)))).
    + rewrite IH by (rewrite length_skipn; lia).
      cbn [Nat.mul skipn]. apply firstn_skipn.
    + intros i. rewrite skipn_skipn. do 2 f_equal. lia.
Qed.

(** X6. For a positive page size the fallback pages 1 to [total_pages],
    put one after the other, are the narrowed pool: every avatar of the
    pool is on exactly one page, in the order of the pool. *)
Theorem fallback_pages_cover_pool (pageSize : Z) (groupId : option string) :
  0 < pageSize ->
  exists n : nat,
    total_pages (data (getMockAvatarData {| page := 1; page_size := pageSize |} groupId))
    = Int (Z.of_nat n)
    /\ List.concat (map (fun i =>
                 avatars (data (getMockAvatarData
                                  {| page := Z.of_nat i + 1; page_size := pageSize |}
                                  groupId)))
              (seq 0 n))
       = filteredAvatars groupId.
Proof.
  intros Hps. cbn [getMockAvatarData data total_pages avatars page page_size].
  set (pool := filteredAvatars groupId).
  destruct (ceil_div_positive (Z.of_nat (List.length pool)) pageSize
              ltac:(lia) Hps) as [q [Hq Hbounds]].
  exists (Z.to_nat q). rewrite Hq, Z2Nat.id by nia. split; [reflexivity|].
  etransitivity;
    [|apply (chunks_concat (Z.to_nat pageSize) (Z.to_nat q) pool); nia].
  f_equal. apply map_ext. intros i.
  rewrite <- (slice_window pool (i * Z.to_nat pageSize) (Z.to_nat pageSize)).
  f_equal; nia.
Qed.

Lemma fallback_pages_cover_pool_witness :
  0 < 20 /\
  exists n : nat,
    total_pages (data (getMockAvatarData {| page := 1; page_size := 20 |} (Some "group_4")))
    = Int (Z.of_nat n)
    /\ List.concat (map (fun i =>
                 avatars (data (getMockAvatarData
                                  {| page := Z.of_nat i + 1; page_size := 20 |}
                                  (Some "group_4"))))
              (seq 0 n))
       = filteredAvatars (Some "group_4").
Proof.
  assert (H : 0 < 20) by reflexivity.
  exact (conj H (fallback_pages_cover_pool 20 (Some "group_4") H)).
Defined.

(** The number of avatars on a fallback page. *)
Lemma fallback_page_count (params : PaginationParams) (groupId : option string) :
  1 <= page params -> 0 <= page_size params ->
  let r := data (getMockAvatarData params groupId) in
  count r
  = Z.max 0 (Z.min (page params * page_size params) (total r)
             - (page params - 1) * page_size params).
Proof.
  intros Hpage Hsize r. subst r.
  cbn [getMockAvatarData data count total].
  set (pool := filteredAvatars groupId).
  set (start := (page params - 1) * page_size params).
  assert (Hstart : 0 <= start) by (subst start; nia).
  rewrite (slice_length pool start (start + page_size params) Hstart ltac:(lia)).
  replace (page params * page_size params) with (start + page_size params)
    by (subst start; lia).
  reflexivity.
Qed.

(** X7. For a page number of at least 1 and a page size that is not
    negative, the fallback page holds at most [page_size] avatars, all of
    them from the candidate pool; their number is the part of the window
    [(page-1)*page_size .. page*page_size] that lies inside the narrowed
    pool. *)
Theorem fallback_page_content (params : PaginationParams) (groupId : option string) :
  1 <= page params -> 0 <= page_size params ->
  let r := data (getMockAvatarData params groupId) in
  count r <= page_size params
  /\ count r <= total r
  /\ count r
     = Z.max 0 (Z.min (page params * page_size params) (total r)
                - (page params - 1) * page_size params)
  /\ incl (avatars r) allMockAvatars.
Proof.
  intros Hpage Hsize r. subst r.
  cbn [getMockAvatarData data count total avatars].
  set (pool := filteredAvatars groupId).
  set (start := (page params - 1) * page_size params).
  assert (Hstart : 0 <= start) by (subst start; nia).
  pose proof (slice_length_le pool start (page_size params) Hsize) as Hle.
  pose proof (slice_length pool start (start + page_size params) Hstart ltac:(lia))
    as Hcount.
  replace (page params * page_size params) with (start + page_size params)
    by (subst start; lia).
  repeat split; try lia.
  intros a Ha. apply slice_incl in Ha. subst pool.
  unfold filteredAvatars in Ha.
  destruct groupId as [g|]; [|exact Ha].
  destruct (truthy_string (Some g) && negb (String.eqb g "all")); [|exact Ha].
  now apply slice_incl in Ha.
Qed.

Lemma fallback_page_content_witness :
  let params := {| page := 3; page_size := 20 |} in
  let r := data (getMockAvatarData params None) in
  1 <= page params /\ 0 <= page_size params /\
  count r = 13 /\ count r <= page_size params.
Proof.
  intros params r.
  assert (H1 : 1 <= page params) by discriminate.
  assert (H2 : 0 <= page_size params) by discriminate.
  exact (conj H1 (conj H2 (conj eq_refl
           (proj1 (fallback_page_content params None H1 H2))))).
Defined.

(** X8. Whatever the group identifier, the narrowed pool is part of the
    candidate pool; for a non-empty identifier other than ['all'] it has
    at most 15 avatars, also when the number read from the identifier is
    negative or large. *)
Theorem fallback_group_is_small (groupId : option string) :
  incl (filteredAvatars groupId) allMockAvatars
  /\ (truthy_string groupId = true -> groupId <> Some "all" ->
      (List.length (filteredAvatars groupId) <= 15)%nat).
Proof.
  unfold filteredAvatars. destruct groupId as [g|].
  - destruct (truthy_string (Some g)) eqn:Htruthy; cbn [andb].
    + destruct (String.eqb_spec g "all") as [-> | Hne]; cbn [negb].
      * split; [apply incl_refl | congruence].
      * split; [apply slice_incl|]. intros _ _.
        pose proof (slice_length_le allMockAvatars
                      ((or_default (parseInt (replace g "group_" "")) 1 - 1) * 15)
                      15 ltac:(lia)). lia.
    + split; [apply incl_refl | discriminate].
  - split; [apply incl_refl | discriminate].
Qed.

Lemma fallback_group_is_small_witness :
  truthy_string (Some "group_-1") = true /\ Some "group_-1" <> Some "all" /\
  (List.length (filteredAvatars (Some "group_-1")) <= 15)%nat.
Proof.
  assert (H1 : truthy_string (Some "group_-1") = true) by reflexivity.
  assert (H2 : Some "group_-1" <> Some "all") by discriminate.
  exact (conj H1 (conj H2 (proj2 (fallback_group_is_small (Some "group_-1")) H1 H2))).
Defined.

(** X9. When the transport answers the request of an operation with a
    success status and a readable body, the operation returns that body
    as it is.  The client does not look at the [error] field: a body that
    reports an error is returned too, and no substitute is made. *)
Theorem live_body_is_passed_through (t : Transport) (op : Operation) (r : Result) :
  answers t op r -> call t op = Return r.
Proof.
  destruct op as [params groupId | includePublic | avatarId], r as [body | body | body];
    cbn [answers call]; try contradiction; intros [status Hanswer];
    unfold fetchAvatars, fetchAvatarGroups, fetchAvatarDetails, request_json;
    rewrite Hanswer; reflexivity.
Qed.

Lemma live_body_is_passed_through_witness :
  let body := {| error := str "quota exceeded";
                 data := {| avatars := []; count := 0; total := 0; data_page := 1;
                            data_page_size := 20; total_pages := Int 0 |} |} in
  let op := FetchAvatars {| page := 1; page_size := 20 |} None in
  answers (replying body) op (Avatars body) /\
  call (replying body) op = Return (Avatars body).
Proof.
  intros body op.
  assert (H : answers (replying body) op (Avatars body)) by (exists 200; reflexivity).
  exact (conj H (live_body_is_passed_through _ _ _ H)).
Defined.

End FallbackPages.

(** ** The page bar *)

Section PageBar.
Import PaginationControls.

Lemma interval_In (lo hi x : Z) : In x (interval lo hi) <-> lo <= x <= hi.
Proof.
  unfold interval. rewrite in_map_iff. split.
  - intros [k [<- Hk]]. apply in_seq in Hk. lia.
  - intros Hx. exists (Z.to_nat (x - lo)). split; [lia|]. apply in_seq. lia.
Qed.

Lemma interval_length (lo hi : Z) :
  List.length (interval lo hi) = Z.to_nat (hi - lo + 1).
Proof. unfold interval. now rewrite length_map, length_seq. Qed.

Lemma shifted_seq_sorted (lo : Z) (n : nat) : forall start : nat,
  StronglySorted Z.lt (map (fun k => lo + Z.of_nat k) (seq start n)).
Proof.
  induction n as [|n IH]; intros start; cbn [seq map]; constructor.
  - apply IH.
  - apply Forall_forall. intros x Hx. apply in_map_iff in Hx as [k [<- Hk]].
    apply in_seq in Hk. lia.
Qed.

Lemma sorted_app (l1 l2 : list Z) :
  StronglySorted Z.lt l1 -> StronglySorted Z.lt l2 ->
  (forall x y, In x l1 -> In y l2 -> x < y) ->
  StronglySorted Z.lt (l1 ++ l2).
Proof.
  induction l1 as [|a l1 IH]; intros H1 H2 Hlt; [exact H2|].
  inversion H1 as [|? ? Hs Hall]; subst. cbn [app]. constructor.
  - apply IH; [assumption | assumption | intros; apply Hlt; [now right | assumption]].
  - apply Forall_app. split; [assumption|].
    apply Forall_forall. intros y Hy. apply Hlt; [now left | assumption].
Qed.

(** The pushed pages are already in strictly ascending order. *)
Lemma range_sorted (p : Props) : StronglySorted Z.lt (range p).
Proof.
  unfold range. apply (sorted_app [1]).
  - repeat constructor.
  - apply sorted_app.
    + apply shifted_seq_sorted.
    + destruct (totalPages p >? 1); repeat constructor.
    + intros x y Hx Hy. apply interval_In in Hx.
      destruct (totalPages p >? 1); [|contradiction].
      destruct Hy as [<- | []]. lia.
  - intros x y [<- | []] Hy. apply in_app_or in Hy as [Hy | Hy].
    + apply interval_In in Hy. lia.
    + destruct (Z.gtb_spec (totalPages p) 1); [|contradiction].
      destruct Hy as [<- | []]. lia.
Qed.

Lemma unique_from_sorted (l : list Z) : forall seen : list Z,
  StronglySorted Z.lt l -> (forall x, In x l -> ~ In x seen) ->
  unique_from seen l = l.
Proof.
  induction l as [|x rest IH]; intros seen Hsorted Hfresh; [reflexivity|].
  inversion Hsorted as [|? ? Hs Hall]; subst. cbn [unique_from].
  destruct (existsb (Z.eqb x) seen) eqn:Hseen.
  - apply existsb_exists in Hseen as [y [Hy Heq]]. apply Z.eqb_eq in Heq. subst y.
    exfalso. apply (Hfresh x); [now left | assumption].
  - f_equal. apply IH; [assumption|].
    intros y Hy [<- | Hin].
    + rewrite Forall_forall in Hall. specialize (Hall _ Hy). lia.
    + apply (Hfresh y); [now right | assumption].
Qed.

Lemma sort_sorted (l : list Z) : StronglySorted Z.lt l -> sort l = l.
Proof.
  induction 1 as [|x rest Hs IH Hall]; [reflexivity|].
  cbn [sort]. rewrite IH. destruct rest as [|y rest']; [reflexivity|].
  cbn [insert]. inversion Hall; subst.
  destruct (Z.leb_spec x y); [reflexivity | lia].
Qed.

Lemma dots_dropped (l : list Z) : forall prev : Z,
  flat_map (fun item : Z + string =>
              match item with inl page => [page] | inr _ => [] end)
    (with_dots prev l) = l.
Proof.
  induction l as [|page rest IH]; intros prev; [reflexivity|].
  cbn [with_dots]. rewrite flat_map_app. cbn [flat_map app]. rewrite IH.
  destruct (page - prev >? 1); reflexivity.
Qed.

Lemma getVisiblePages_range (p : Props) : getVisiblePages p = range p.
Proof.
  unfold getVisiblePages, unique. cbv zeta. rewrite dots_dropped.
  rewrite (unique_from_sorted _ [] (range_sorted p)) by (intros ? ? []).
  apply sort_sorted, range_sorted.
Qed.

(** X10. [getVisiblePages] returns the pushed pages themselves, in
    strictly ascending order: making them unique, sorting them and
    marking the gaps change nothing, since the gap marks are removed
    again before the result is returned. *)
Theorem visible_pages_are_the_range (p : Props) :
  getVisiblePages p = range p /\ StronglySorted Z.lt (getVisiblePages p).
Proof.
  rewrite getVisiblePages_range. split; [reflexivity | apply range_sorted].
Qed.

Lemma range_In (p : Props) (q : Z) :
  In q (range p) <->
  q = 1
  \/ (2 <= q <= totalPages p - 1 /\ currentPage p - 2 <= q <= currentPage p + 2)
  \/ (1 < totalPages p /\ q = totalPages p).
Proof.
  unfold range. cbn [app In]. rewrite in_app_iff, interval_In.
  destruct (Z.gtb_spec (totalPages p) 1); cbn [In]; lia.
Qed.

(** X11. The page bar shows page 1, the last page when there is more
    than one, and the pages from 2 to the last but one that are at most
    two away from the current page, and no other: at most seven buttons.
    With [1 <= currentPage <= totalPages] they all lie between 1 and
    [totalPages] and the current page is among them. *)
Theorem visible_pages_membership (p : Props) :
  (forall q : Z,
      In q (getVisiblePages p) <->
      q = 1
      \/ (2 <= q <= totalPages p - 1 /\ currentPage p - 2 <= q <= currentPage p + 2)
      \/ (1 < totalPages p /\ q = totalPages p))
  /\ (List.length (getVisiblePages p) <= 7)%nat
  /\ (1 <= currentPage p <= totalPages p ->
      In (currentPage p) (getVisiblePages p)
      /\ forall q : Z, In q (getVisiblePages p) -> 1 <= q <= totalPages p).
Proof.
  rewrite (getVisiblePages_range p).
  split; [intros q; apply range_In | split].
  - unfold range. cbn [app List.length]. rewrite length_app, interval_length.
    destruct (totalPages p >? 1); cbn [List.length]; lia.
  - intros Hcur. split.
    + apply range_In. lia.
    + intros q Hq. apply range_In in Hq. lia.
Qed.

Lemma visible_pages_membership_witness :
  let p := {| currentPage := 5; totalPages := 10; totalItems := 200; pageSize := 20 |} in
  1 <= currentPage p <= totalPages p /\
  getVisiblePages p = [1; 3; 4; 5; 6; 7; 10] /\
  In (currentPage p) (getVisiblePages p).
Proof.
  intros p.
  assert (H : 1 <= currentPage p <= totalPages p) by (split; discriminate).
  exact (conj H (conj eq_refl
           (proj1 (proj2 (proj2 (visible_pages_membership p)) H)))).
Defined.

(** X12. The "Showing [start] to [end]" range agrees with the fallback
    page it describes: for a page number of at least 1, a positive page
    size and a page that starts inside the narrowed pool, the range is
    not empty, ends within the total, and counts exactly the avatars on
    the page. *)
Theorem item_range_counts_the_page (params : Types.PaginationParams)
    (groupId : option string) (pages : Z) :
  1 <= Types.page params -> 0 < Types.page_size params ->
  (Types.page params - 1) * Types.page_size params
    < Types.total (Types.data (HeyGenService.getMockAvatarData params groupId)) ->
  let r := Types.data (HeyGenService.getMockAvatarData params groupId) in
  let '(start, stop) :=
    getItemRange {| currentPage := Types.data_page r; totalPages := pages;
                    totalItems := Types.total r;
                    pageSize := Types.data_page_size r |} in
  1 <= start <= stop /\ stop <= Types.total r /\ stop - start + 1 = Types.count r.
Proof.
  intros Hpage Hsize Hinside r.
  pose proof (fallback_page_count params groupId Hpage ltac:(lia)) as Hcount.
  cbv zeta in Hcount. subst r.
  cbn [getItemRange currentPage pageSize totalItems
       HeyGenService.getMockAvatarData Types.data Types.data_page
       Types.data_page_size Types.total Types.count] in *.
  nia.
Qed.

Lemma item_range_counts_the_page_witness :
  let params := {| Types.page := 3; Types.page_size := 20 |} in
  let r := Types.data (HeyGenService.getMockAvatarData params None) in
  1 <= Types.page params /\ 0 < Types.page_size params /\
  (Types.page params - 1) * Types.page_size params < Types.total r /\
  getItemRange {| currentPage := 3; totalPages := 3; totalItems := 53; pageSize := 20 |}
  = (41, 53) /\
  53 - 41 + 1 = Types.count r.
Proof.
  intros params r.
  assert (H1 : 1 <= Types.page params) by discriminate.
  assert (H2 : 0 < Types.page_size params) by reflexivity.
  assert (H3 : (Types.page params - 1) * Types.page_size params < Types.total r)
    by reflexivity.
  exact (conj H1 (conj H2 (conj H3 (conj eq_refl
           (proj2 (proj2 (item_range_counts_the_page params None 3 H1 H2 H3))))))).
Defined.

End PageBar.

(** ** The gallery and its controls *)

Section GalleryControls.
Import JS Types AvatarGallery GalleryView.
Local Open Scope handler_scope.

(** Every target of an enabled button lies between 1 and the last page. *)
Lemma button_targets_in_range (loading : bool) (p : PaginationControls.Props) (q : Z) :
  1 <= PaginationControls.currentPage p <= PaginationControls.totalPages p ->
  In q (button_targets loading p) -> 1 <= q <= PaginationControls.totalPages p.
Proof.
  intros Hcur. unfold button_targets.
  destruct (loading || (PaginationControls.totalPages p <=? 1)); [intros []|].
  rewrite !in_app_iff, getVisiblePages_range, range_In.
  destruct (Z.eqb_spec (PaginationControls.currentPage p) 1);
    destruct (Z.eqb_spec (PaginationControls.currentPage p)
                (PaginationControls.totalPages p));
    cbn [In]; lia.
Qed.

(** X13. With [1 <= currentPage <= totalPages], a click on any enabled
    button of the page bar is never discarded by the gallery as out of
    range: a button for the current page does nothing, and any other
    button starts exactly one avatars fetch, for its page and the
    selected group. *)
Theorem page_buttons_lead_somewhere (st : State) (last q : Z) :
  totalPages st = Int last ->
  1 <= currentPage st <= last ->
  In q (button_targets (loading st) (pagination_props st last)) ->
  dispatch (handlePageChange q) st =
  if q =? currentPage st then (st, [])
  else (setError None (setLoading true st),
        [CallFetchAvatars {| page := q; page_size := pageSize st |}
           (selectedGroup (filters st)) false;
         ScrollToTop]).
Proof.
  intros Htotal Hcur Hq.
  apply button_targets_in_range in Hq; [|exact Hcur].
  cbn [pagination_props PaginationControls.totalPages] in Hq.
  pose proof (handlePageChange_run q st) as Hrun.
  rewrite Htotal in Hrun. cbn [int_leb] in Hrun.
  replace (q >=? 1) with true in Hrun by (symmetry; apply Z.geb_le; lia).
  replace (q <=? last) with true in Hrun by (symmetry; apply Z.leb_le; lia).
  rewrite !andb_true_r in Hrun.
  destruct (q =? currentPage st); cbn [negb] in Hrun;
    exact (dispatch_same_group _ _ _ _ Hrun eq_refl).
Qed.

Lemma page_buttons_lead_somewhere_witness :
  let st := Scenario.first_page in
  totalPages st = Int 3 /\ 1 <= currentPage st <= 3 /\
  button_targets (loading st) (pagination_props st 3) = [1; 2; 3; 2; 3] /\
  avatar_fetches (snd (dispatch (handlePageChange 2) st))
  = [({| page := 2; page_size := 20 |}, None)].
Proof.
  intros st.
  assert (H1 : totalPages st = Int 3) by reflexivity.
  assert (H2 : 1 <= currentPage st <= 3) by (split; discriminate).
  assert (H3 : In 2 (button_targets (loading st) (pagination_props st 3)))
    by (right; left; reflexivity).
  split; [exact H1 | split; [exact H2 | split; [reflexivity|]]].
  rewrite (page_buttons_lead_somewhere st 3 2 H1 H2 H3). reflexivity.
Defined.

(** X14. The gender buttons and the premium checkbox of the filter bar
    never start a fetch and leave the loaded avatars and the page state
    alone, in every state; ticking the checkbox twice gives back the
    state it started from. *)
Theorem filter_bar_is_local (st : State) (g : GenderFilter) :
  let by_gender :=
    dispatch (handleFiltersChange (FilterControls.handleGenderChange (filters st) g)) st in
  let by_premium :=
    dispatch (handleFiltersChange (FilterControls.handlePremiumToggle (filters st))) st in
  snd by_gender = [] /\ snd by_premium = []
  /\ avatars (fst by_gender) = avatars st /\ avatars (fst by_premium) = avatars st
  /\ currentPage (fst by_gender) = currentPage st
  /\ currentPage (fst by_premium) = currentPage st
  /\ gender_filter (filters (fst by_gender)) = g
  /\ premiumOnly (filters (fst by_premium)) = negb (premiumOnly (filters st))
  /\ fst (dispatch (handleFiltersChange
                      (FilterControls.handlePremiumToggle (filters (fst by_premium))))
            (fst by_premium)) = st.
Proof.
  intros by_gender by_premium. subst by_gender by_premium.
  rewrite (dispatch_same_group
             (handleFiltersChange (FilterControls.handleGenderChange (filters st) g))
             st _ [] eq_refl eq_refl).
  rewrite (dispatch_same_group
             (handleFiltersChange (FilterControls.handlePremiumToggle (filters st)))
             st _ [] eq_refl eq_refl).
  cbn [fst snd].
  match goal with
  | |- context [dispatch (handleFiltersChange ?f) ?s] =>
      rewrite (dispatch_same_group (handleFiltersChange f) s (setFilters f s) []
                 eq_refl eq_refl)
  end.
  repeat split.
  destruct st as [? ? ? ? ? ? ? [? po ?] ? ? ? ?]. cbn.
  unfold setFilters, FilterControls.handlePremiumToggle. cbn.
  now rewrite negb_involutive.
Qed.

(** The group found by [find] when the identifiers are all different. *)
Lemma find_group_by_id (groups : list AvatarGroup) (g : AvatarGroup) :
  NoDup (map avatar_group_id groups) -> In g groups ->
  find (fun x => String.eqb (avatar_group_id x) (avatar_group_id g)) groups = Some g.
Proof.
  induction groups as [|x rest IH]; intros Hnodup Hin; [contradiction|].
  cbn [map] in Hnodup. inversion Hnodup as [|? ? Hfresh Hrest]; subst.
  cbn [find]. destruct Hin as [-> | Hin].
  - now rewrite String.eqb_refl.
  - destruct (String.eqb_spec (avatar_group_id x) (avatar_group_id g)) as [Heq | _].
    + exfalso. apply Hfresh. rewrite Heq. now apply in_map.
    + now apply IH.
Qed.

(** X15. The name shown for the selected group: "All Groups" when no
    group is selected; the title of the selected group when it is in the
    list (the identifiers being all different); "Unknown Group" when the
    selected identifier belongs to no group of the list. *)
Theorem selected_group_name (gender : GenderFilter) (premium : bool)
    (groups : list AvatarGroup) :
  (forall sel : option string,
      truthy_string sel = false ->
      FilterControls.getSelectedGroupName
        {| gender_filter := gender; premiumOnly := premium; selectedGroup := sel |}
        groups = "All Groups")
  /\ (forall g : AvatarGroup,
        NoDup (map avatar_group_id groups) -> In g groups ->
        avatar_group_id g <> "" ->
        FilterControls.getSelectedGroupName
          {| gender_filter := gender; premiumOnly := premium;
             selectedGroup := Some (avatar_group_id g) |}
          groups = title g)
  /\ (forall id : string,
        id <> "" -> (forall g, In g groups -> avatar_group_id g <> id) ->
        FilterControls.getSelectedGroupName
          {| gender_filter := gender; premiumOnly := premium; selectedGroup := Some id |}
          groups = "Unknown Group").
Proof.
  unfold FilterControls.getSelectedGroupName. cbn [selectedGroup].
  split; [|split].
  - intros [id|] Hfalsy; [rewrite Hfalsy|]; reflexivity.
  - intros g Hnodup Hin Hid. unfold truthy_string.
    destruct (String.eqb_spec (avatar_group_id g) ""); [contradiction|]. cbn [negb].
    now rewrite (find_group_by_id groups g Hnodup Hin).
  - intros id Hid Hnone. unfold truthy_string.
    destruct (String.eqb_spec id ""); [contradiction|]. cbn [negb].
    destruct (find _ groups) as [g|] eqn:Hfind; [|reflexivity].
    apply find_some in Hfind as [Hin Heq]. apply String.eqb_eq in Heq.
    exfalso. exact (Hnone g Hin Heq).
Qed.

Lemma selected_group_name_witness :
  let g := {| avatar_group_id := "g1"; title := "First"; description := None;
              avatar_count := 2; is_public := true; created_at := "";
              updated_at := ""; group_preview_image_url := None |} in
  let groups := [g] in
  (NoDup (map avatar_group_id groups) /\ In g groups /\ avatar_group_id g <> ""
   /\ FilterControls.getSelectedGroupName
        {| gender_filter := all; premiumOnly := false;
           selectedGroup := Some (avatar_group_id g) |} groups
      = "First")
  /\ ("g2" <> "" /\ (forall x, In x groups -> avatar_group_id x <> "g2")
      /\ FilterControls.getSelectedGroupName
           {| gender_filter := all; premiumOnly := false; selectedGroup := Some "g2" |}
           groups
         = "Unknown Group").
Proof.
  intros g groups.
  destruct (selected_group_name all false groups) as (_ & Hfound & Hunknown).
  assert (Hnodup : NoDup (map avatar_group_id groups))
    by (repeat constructor; intros []).
  assert (Hin : In g groups) by (left; reflexivity).
  assert (Hid : avatar_group_id g <> "") by discriminate.
  assert (Hid' : "g2" <> "") by discriminate.
  assert (Hnone : forall x, In x groups -> avatar_group_id x <> "g2")
    by (intros x [<- | []]; discriminate).
  exact (conj (conj Hnodup (conj Hin (conj Hid (Hfound g Hnodup Hin Hid))))
              (conj Hid' (conj Hnone (Hunknown "g2" Hid' Hnone)))).
Defined.

End GalleryControls.

Section GalleryScreens.
Import JS Types AvatarGallery GalleryView.
Local Open Scope handler_scope.

(** X16. The dropdown and the selected group agree: the value chosen in
    the dropdown, unless it is empty, is the value the dropdown shows
    afterwards, and choosing ['all'] clears the selection.  The other way
    round, choosing the value on display gives back the selection, unless
    the selected identifier is the empty string or ['all']. *)
Theorem group_dropdown_round_trip :
  GroupSelector.handleGroupChange "all" = None
  /\ (forall value : string,
        value <> "" ->
        GroupSelector.select_value (GroupSelector.handleGroupChange value) = value)
  /\ (forall selected : option string,
        selected <> Some "" -> selected <> Some "all" ->
        GroupSelector.handleGroupChange (GroupSelector.select_value selected)
        = selected).
Proof.
  split; [reflexivity | split].
  - intros value Hne. unfold GroupSelector.handleGroupChange.
    destruct (String.eqb_spec value "all") as [-> | _]; [reflexivity|].
    unfold GroupSelector.select_value, truthy_string.
    destruct (String.eqb_spec value ""); [contradiction | reflexivity].
  - intros [g|] Hempty Hall; [|reflexivity].
    unfold GroupSelector.select_value, truthy_string.
    destruct (String.eqb_spec g "") as [-> | _]; [congruence|]. cbn [negb].
    unfold GroupSelector.handleGroupChange.
    destruct (String.eqb_spec g "all") as [-> | _]; [congruence | reflexivity].
Qed.

Lemma group_dropdown_round_trip_witness :
  "group_2" <> "" /\
  GroupSelector.select_value (GroupSelector.handleGroupChange "group_2") = "group_2".
Proof.
  assert (H : "group_2" <> "") by discriminate.
  exact (conj H (proj1 (proj2 group_dropdown_round_trip) "group_2" H)).
Defined.

(** X17. Once avatars are loaded, the recorded error plays no part in
    what is rendered: the screen is the same with any error or none, so
    a failed page change leaves the previous page on display with no
    error shown. *)
Theorem error_is_hidden_behind_avatars (st : State) (e : option string) :
  avatars st <> [] -> render (setError e st) = render st.
Proof.
  intros Hloaded. unfold render. cbn [setError loading avatars groupsLoading groups
    viewMode error filters totalPages].
  destruct (avatars st) as [|a rest] eqn:Havatars; [contradiction|].
  cbn [is_empty]. rewrite !andb_false_r.
  destruct e, (error st), (viewMode st); reflexivity.
Qed.

Lemma error_is_hidden_behind_avatars_witness :
  let st := Scenario.third_page in
  avatars st <> [] /\
  render (setError (Some "Failed to fetch avatars from API") st) = render st.
Proof.
  intros st.
  assert (H : avatars st <> []) by discriminate.
  exact (conj H (error_is_hidden_behind_avatars st _ H)).
Defined.

(** X18. Whenever the rendered screen offers the Retry button, the
    gallery is in the avatars view with no avatars, so Retry starts
    exactly one avatars fetch, for the current page and the selected
    group; the branch of [handleRetry] that refetches the groups is not
    reached from the screen. *)
Theorem retry_refetches_avatars (st : State) :
  offers_retry (render st) = true ->
  viewMode st = view_avatars /\ avatars st = []
  /\ dispatch handleRetry st
     = (setError None (setLoading true st),
        [CallFetchAvatars {| page := currentPage st; page_size := pageSize st |}
           (selectedGroup (filters st)) false]).
Proof.
  unfold render. intros Hretry.
  assert (Hview : viewMode st = view_avatars /\ avatars st = []).
  { destruct (viewMode st).
    - split; [reflexivity|]. destruct (avatars st) as [|a rest]; [reflexivity|].
      exfalso. cbn [is_empty] in Hretry. rewrite !andb_false_r in Hretry.
      cbn [orb negb andb] in Hretry.
      destruct (error st);
        destruct (negb (is_empty (filteredAvatars (a :: rest) (filters st))));
        discriminate.
    - exfalso.
      destruct (loading st && is_empty (avatars st)
                || groupsLoading st && is_empty (groups st) && true);
        [discriminate|].
      destruct (error st); destruct (negb (is_empty (groups st))); discriminate. }
  destruct Hview as [Hview Hempty]. split; [exact Hview | split; [exact Hempty|]].
  apply dispatch_same_group; [|reflexivity].
  unfold handleRetry, fetchAvatars, seq_bind, read, set, issue. now rewrite Hview.
Qed.

Lemma retry_refetches_avatars_witness :
  let st := setAvatars [] Scenario.first_page in
  offers_retry (render st) = true /\
  avatar_fetches (snd (dispatch handleRetry st))
  = [({| page := 1; page_size := 20 |}, None)].
Proof.
  intros st.
  assert (H : offers_retry (render st) = true) by reflexivity.
  split; [exact H|].
  rewrite (proj2 (proj2 (retry_refetches_avatars st H))). reflexivity.
Defined.

(** X19. A page change made while the transport fails ends on the page
    that was asked for: the fetch is answered by the fallback, and once
    it settles the gallery is on page [n] with the avatars of the
    fallback page, at most [pageSize] of them, no error and no loading
    flag; the filters are untouched. *)
Theorem offline_page_change (t : HeyGenService.Transport) (st : State) (n : Z) :
  page_in_range n (totalPages st) -> n <> currentPage st -> 0 <= pageSize st ->
  HeyGenService.fails_on t
    (HeyGenService.FetchAvatars {| page := n; page_size := pageSize st |}
       (selectedGroup (filters st))) ->
  let started := dispatch (handlePageChange n) st in
  let settled := answer_all t (snd started) (fst started) in
  currentPage settled = n
  /\ avatars settled
     = Types.avatars (data (HeyGenService.getMockAvatarData
                              {| page := n; page_size := pageSize st |}
                              (selectedGroup (filters st))))
  /\ Z.of_nat (List.length (avatars settled)) <= pageSize st
  /\ error settled = None /\ loading settled = false
  /\ filters settled = filters st.
Proof.
  intros Hrange Hne Hsize Hfail started settled. subst settled started.
  pose proof (handlePageChange_run n st) as Hrun.
  apply int_leb_in_range in Hrange. apply Z.eqb_neq in Hne.
  rewrite <- andb_assoc, Hrange, Hne in Hrun. cbn [negb andb] in Hrun.
  rewrite (dispatch_same_group _ _ _ _ Hrun eq_refl). cbn [fst snd answer_all answer].
  cbn [HeyGenService.fails_on] in Hfail.
  apply request_json_throws in Hfail as [e He].
  unfold HeyGenService.fetchAvatars. rewrite He. cbn [try_catch].
  unfold dispatch, fetchAvatars_settled. cbn [bind].
  cbn [HeyGenService.getMockAvatarData Types.error truthy].
  unfold seq_bind, set, issue.
  cbn [setAvatars setTotalPages setTotalItems setCurrentPage setLoading setError
       filters avatars currentPage error loading fst snd
       Types.data Types.avatars Types.total_pages Types.total Types.data_page
       page page_size].
  rewrite same_group_refl. cbn [fst avatars currentPage error loading filters].
  repeat split.
  apply slice_length_le. exact Hsize.
Qed.

Lemma offline_page_change_witness :
  let st := Scenario.first_page in
  let started := dispatch (handlePageChange 3) st in
  let settled := answer_all HeyGenService.offline (snd started) (fst started) in
  page_in_range 3 (totalPages st) /\ 3 <> currentPage st /\ 0 <= pageSize st /\
  currentPage settled = 3 /\ Z.of_nat (List.length (avatars settled)) <= pageSize st.
Proof.
  intros st started settled.
  assert (H1 : page_in_range 3 (totalPages st)) by (cbn; split; discriminate).
  assert (H2 : 3 <> currentPage st) by discriminate.
  assert (H3 : 0 <= pageSize st) by discriminate.
  assert (H4 : HeyGenService.fails_on HeyGenService.offline
                 (HeyGenService.FetchAvatars {| page := 3; page_size := pageSize st |}
                    (selectedGroup (filters st)))) by exact I.
  destruct (offline_page_change HeyGenService.offline st 3 H1 H2 H3 H4)
    as (Hp & _ & Hlen & _).
  exact (conj H1 (conj H2 (conj H3 (conj Hp Hlen)))).
Defined.

End GalleryScreens.

Section Settling.
Import JS Types AvatarGallery GalleryView.
Local Open Scope handler_scope.

(** The turns that settle a fetch leave [filters] alone, so they run no
    effect; these are their results. *)
Lemma avatars_settled_turn (resetPage : bool)
    (outcome : Completion exn AvatarResponse) (st : State) :
  dispatch (fetchAvatars_settled resetPage outcome) st
  = let '(_, next, cmds) := fetchAvatars_settled resetPage outcome st st in
    (next, cmds).
Proof.
  unfold dispatch.
  destruct outcome as [response | e]; unfold fetchAvatars_settled; cbn [bind];
    [destruct (truthy (Types.error response)), resetPage|];
    unfold seq_bind, set, issue; cbn; now rewrite same_group_refl.
Qed.

Lemma groups_settled_turn (outcome : Completion exn AvatarGroupResponse) (st : State) :
  dispatch (fetchGroups_settled outcome) st
  = let '(_, next, cmds) := fetchGroups_settled outcome st st in (next, cmds).
Proof.
  unfold dispatch.
  destruct outcome as [response | e]; unfold fetchGroups_settled;
    [destruct (truthy (groups_error response))|];
    unfold seq_bind, set, issue; cbn; now rewrite same_group_refl.
Qed.

(** X20. The groups fetch and the avatars fetch of the start-up settle
    independently: whichever settles first, and whatever each of them
    brings (data, an error payload or a rejection), the gallery ends in
    the same state. *)
Theorem settles_commute (st : State) (resetPage : bool)
    (avatarsOutcome : Completion exn AvatarResponse)
    (groupsOutcome : Completion exn AvatarGroupResponse) :
  fst (dispatch (fetchGroups_settled groupsOutcome)
         (fst (dispatch (fetchAvatars_settled resetPage avatarsOutcome) st)))
  = fst (dispatch (fetchAvatars_settled resetPage avatarsOutcome)
           (fst (dispatch (fetchGroups_settled groupsOutcome) st))).
Proof.
  rewrite !avatars_settled_turn, !groups_settled_turn.
  destruct avatarsOutcome as [response | e], groupsOutcome as [response' | e'];
    unfold fetchAvatars_settled, fetchGroups_settled; cbn [bind];
    repeat match goal with
           | |- context [truthy ?x] => destruct (truthy x)
           end;
    destruct resetPage; reflexivity.
Qed.

(** X21. Two avatars fetches in flight at once: when one of them settles
    with an error payload and the other with data, in either order, the
    gallery ends with the avatars and the page of the one that brought
    data and with the failure message of the other still recorded, since
    settling with data does not clear the error; and the loading flag is
    already off when the first of the two has settled. *)
Theorem overlapping_fetches (st : State) (pageA pageB : Z)
    (failed loaded : AvatarResponse) :
  truthy (Types.error failed) = true -> truthy (Types.error loaded) = false ->
  let started :=
    fst (dispatch (fetchAvatars pageB false) (fst (dispatch (fetchAvatars pageA false) st))) in
  let failed_first := fst (dispatch (fetchAvatars_settled false (Return failed)) started) in
  let loaded_first := fst (dispatch (fetchAvatars_settled false (Return loaded)) started) in
  let end1 := fst (dispatch (fetchAvatars_settled false (Return loaded)) failed_first) in
  let end2 := fst (dispatch (fetchAvatars_settled false (Return failed)) loaded_first) in
  error started = None /\ loading started = true
  /\ loading failed_first = false /\ loading loaded_first = false
  /\ end1 = end2
  /\ avatars end1 = Types.avatars (data loaded)
  /\ currentPage end1 = data_page (data loaded)
  /\ error end1 = Some "Failed to fetch avatars from API".
Proof.
  intros Hfailed Hloaded started failed_first loaded_first end1 end2.
  subst end1 end2 failed_first loaded_first started.
  rewrite !avatars_settled_turn.
  assert (Hstart : forall p s,
      fst (dispatch (fetchAvatars p false) s) = setError None (setLoading true s)).
  { intros p s. now rewrite (dispatch_same_group (fetchAvatars p false) s
                               (setError None (setLoading true s)) _ eq_refl eq_refl). }
  rewrite !Hstart. unfold fetchAvatars_settled. cbn [bind].
  rewrite Hfailed, Hloaded. repeat split.
Qed.

Lemma overlapping_fetches_witness :
  let failed := Scenario.failed_avatars in
  let loaded := HeyGenService.getMockAvatarData {| page := 2; page_size := 20 |} None in
  let started :=
    fst (dispatch (fetchAvatars 2 false)
           (fst (dispatch (fetchAvatars 3 false) Scenario.first_page))) in
  let end1 :=
    fst (dispatch (fetchAvatars_settled false (Return loaded))
           (fst (dispatch (fetchAvatars_settled false (Return failed)) started))) in
  truthy (Types.error failed) = true /\ truthy (Types.error loaded) = false /\
  currentPage end1 = 2 /\ error end1 = Some "Failed to fetch avatars from API".
Proof.
  intros failed loaded started end1.
  assert (H1 : truthy (Types.error failed) = true) by reflexivity.
  assert (H2 : truthy (Types.error loaded) = false) by reflexivity.
  destruct (overlapping_fetches Scenario.first_page 3 2 failed loaded H1 H2)
    as (_ & _ & _ & _ & _ & _ & Hp & He).
  exact (conj H1 (conj H2 (conj Hp He))).
Defined.

End Settling.

(** ** The detail dialog *)

Section DetailDialog.
Import JS Types AvatarDetailsModal.





End DetailDialog.

Section Sessions.
Import JS Types AvatarGallery GalleryView.
Local Open Scope handler_scope.



Lemma dispatch_keeps_settled_error (h : Handler unit) (st next : State)
    (cmds : list Command) :
  h st st = (tt, next, cmds) -> settled_error next ->
  settled_error (fst (dispatch h st)).
Proof.
  intros Hrun Hnext. unfold dispatch. rewrite Hrun.
  destruct (same_group _ _); [exact Hnext|].
  unfold effect_selectedGroup, fetchAvatars, seq_bind, read, set, issue, skip, ret.
  destruct (groupsLoading next); cbn [negb fst]; [exact Hnext|].
  intros Herr. now contradiction Herr.
Qed.

Lemma step_keeps_settled_error (e : Event) (st : State) :
  settled_error st -> settled_error (fst (dispatch (handler_for e) st)).
Proof.
  intros Hst.
  destruct e as [newFilters | | groupId | groupId | n | | mode | avatarId |
                 | resetPage outcome | outcome]; cbn [handler_for].
  - eapply dispatch_keeps_settled_error; [reflexivity | exact Hst].
  - eapply dispatch_keeps_settled_error; [reflexivity | exact Hst].
  - eapply dispatch_keeps_settled_error; [reflexivity | exact Hst].
  - eapply dispatch_keeps_settled_error; [reflexivity | exact Hst].
  - pose proof (handlePageChange_run n st) as Hrun.
    destruct (negb (n =? currentPage st) && (n >=? 1) && int_leb n (totalPages st));
      (eapply dispatch_keeps_settled_error; [exact Hrun|]);
      [intros Herr; now contradiction Herr | exact Hst].
  - unfold dispatch, handleRetry, fetchGroups, fetchAvatars, seq_bind, read, set, issue.
    destruct (viewMode st); cbn; rewrite same_group_refl; cbn;
      [intros Herr; now contradiction Herr | exact Hst].
  - eapply dispatch_keeps_settled_error; [reflexivity | exact Hst].
  - eapply dispatch_keeps_settled_error; [reflexivity | exact Hst].
  - eapply dispatch_keeps_settled_error; [reflexivity | exact Hst].
  - rewrite avatars_settled_turn.
    destruct outcome as [response | err]; unfold fetchAvatars_settled; cbn [bind];
      [destruct (truthy (Types.error response)), resetPage|];
      unfold seq_bind, set, issue; cbn; intros _; reflexivity.
  - rewrite groups_settled_turn.
    destruct outcome as [response | err]; unfold fetchGroups_settled;
      [destruct (truthy (groups_error response))|];
      unfold seq_bind, set, issue; cbn; exact Hst.
Qed.

(** X25. In every state the gallery can reach from its mounting, by any
    sequence of handler calls and settled fetches with any outcomes, a
    recorded error means that the loading flag is off, and the page size
    is 20. *)
Theorem error_means_not_loading (events : list Event) :
  (error (after_events events) <> None -> loading (after_events events) = false)
  /\ pageSize (after_events events) = 20.
Proof.
  unfold after_events.
  assert (Hstart : settled_error (fst mount) /\ pageSize (fst mount) = 20)
    by (split; [intros Herr; now contradiction Herr | reflexivity]).
  revert Hstart. generalize (fst mount) as st.
  induction events as [|e rest IH]; intros st [Hkept Hsize]; [split; assumption|].
  cbn [fold_left]. apply IH. split; [now apply step_keeps_settled_error|].
  rewrite <- Hsize. clear.
  unfold dispatch.
  destruct (handler_for e st st) as [[u next] cmds] eqn:Hrun.
  assert (Hnext : pageSize next = pageSize st).
  { destruct e as [newFilters | | groupId | groupId | n | | mode | avatarId |
                   | resetPage outcome | outcome]; cbn [handler_for] in Hrun;
      try (injection Hrun as _ <- _; reflexivity).
    - rewrite handlePageChange_run in Hrun.
      destruct (negb (n =? currentPage st) && (n >=? 1) && int_leb n (totalPages st));
        injection Hrun as _ <- _; reflexivity.
    - unfold handleRetry, fetchGroups, fetchAvatars, seq_bind, read, set, issue in Hrun.
      destruct (viewMode st); injection Hrun as _ <- _; reflexivity.
    - destruct outcome as [response | err]; unfold fetchAvatars_settled in Hrun;
        cbn [bind] in Hrun;
        [destruct (truthy (Types.error response)), resetPage|];
        injection Hrun as _ <- _; reflexivity.
    - destruct outcome as [response | err]; unfold fetchGroups_settled in Hrun;
        [destruct (truthy (groups_error response))|];
        injection Hrun as _ <- _; reflexivity. }
  destruct (same_group _ _); [exact Hnext|].
  unfold effect_selectedGroup, fetchAvatars, seq_bind, read, set, issue, skip, ret.
  destruct (groupsLoading next); cbn [negb fst]; exact Hnext.
Qed.

Lemma error_means_not_loading_witness :
  let events := [PageChange 2; AvatarsSettled false (Return Scenario.failed_avatars);
                 GroupsSettled (Throw NonError)] in
  error (after_events events) <> None /\ loading (after_events events) = false.
Proof.
  intros events.
  assert (H : error (after_events events) <> None) by discriminate.
  exact (conj H (proj1 (error_means_not_loading events) H)).
Defined.





End Sessions.
